(** * sapy: the statistical-plot gallery and the image-filter demo

    A shallow embedding of the two scripts of the repository,

      - [sap/code_quantlets/SAP_show_plots.py]   (the plot gallery)
      - [src/figures/F5_30_filter_images.py]     (the image-filter demo)

    and proofs of the properties their specification states.

    Numbers.  Python integers and numpy integer arrays are [Z], with the
    [int64] wrap-around written out where the scripts compute on them.  A
    numpy [float64] is an exact rational ([Qc]: rationals in lowest terms,
    compared with Leibniz equality).  The pixels of the test image are
    [uint8] values, the edge kernels hold only 1, 0 and -1, and the error
    magnitudes are halves of small integers: on these, binary64 arithmetic
    is exact and agrees with the rationals.  The averaging weight [1/121]
    and the literals 0.05, 0.1, 0.2 and 4.2 are not binary fractions; for
    them the development reasons about the exact values, and what it
    proves about the averaging filter holds in exact arithmetic (rounding
    is not modelled).

    Libraries.  numpy, scipy.ndimage, matplotlib, seaborn and pandas are
    modelled by what the scripts use of them, following their documented
    behaviour.  What the scripts do not fix (the random generator, how
    matplotlib rescales axes, the test image) is a parameter, [Library],
    and every statement below holds for every instance of it. *)

From Stdlib Require Import String Ascii.
From Stdlib Require Import List ZArith QArith Qcanon Lia Bool.
Import ListNotations.

Local Open Scope Z_scope.

(* ================================================================== *)
(** ** numpy: two-dimensional arrays *)
(* ================================================================== *)

Module Np.

(** A 2-D [float64] array, row by row. *)
Definition ndarray := list (list Qc).

(** An integer as a float, and a decimal literal. *)
Definition of_Z (z : Z) : Qc := Q2Qc (inject_Z z).
Definition lit (q : Q) : Qc := Q2Qc q.

(** [int64] arithmetic wraps around. *)
Definition int64 (z : Z) : Z := (z + 2 ^ 63) mod 2 ^ 64 - 2 ^ 63.

(** [np.arange(n)], an [int64] array. *)
Definition arange (n : nat) : list Z := map Z.of_nat (seq 0 n).

(** [x ** p] on an [int64] array and [x / d] (true division, to floats). *)
Definition int_pow (x : list Z) (p : Z) : list Z := map (fun v => int64 (v ^ p)) x.
Definition true_divide (x : list Z) (d : Z) : list Qc :=
  map (fun v => (of_Z v / of_Z d)%Qc) x.

(** [tabulate n f] is [[f 0; ...; f (n-1)]]. *)
Definition tabulate {A} (n : nat) (f : nat -> A) : list A :=
  map f (seq 0 n).

(** [a.shape[0]] and [a.shape[1]]. *)
Definition rows {A} (a : list (list A)) : nat := length a.
Definition cols {A} (a : list (list A)) : nat := length (hd [] a).

(** [a[i, j]] for an index inside the array. *)
Definition get (a : ndarray) (i j : nat) : Qc :=
  nth j (nth i a []) (Q2Qc 0).

(** An array is well formed when it is rectangular: [h] rows of [w]
    entries. *)
Definition rect {A} (h w : nat) (a : list (list A)) : Prop :=
  length a = h /\ Forall (fun r => length r = w) a.

(** [np.full((h, w), c)], [np.ones((h, w))], [np.ones(n)], [np.zeros(n)]. *)
Definition full (h w : nat) (c : Qc) : ndarray :=
  tabulate h (fun _ => tabulate w (fun _ => c)).
Definition ones2 (h w : nat) : ndarray := full h w (Q2Qc 1).
Definition ones (n : nat) : list Qc := tabulate n (fun _ => Q2Qc 1).
Definition zeros (n : nat) : list Qc := tabulate n (fun _ => Q2Qc 0).

(** [a / c], [c * v] and [a > c], element by element. *)
Definition div_scalar (a : ndarray) (c : Qc) : ndarray :=
  map (map (fun v => (v / c)%Qc)) a.
Definition scale (c : Qc) (v : list Qc) : list Qc :=
  map (fun x => (c * x)%Qc) v.
Definition gtb (v c : Qc) : bool :=
  match (c ?= v)%Qc with Lt => true | _ => false end.
Definition gt_scalar (a : ndarray) (c : Qc) : list (list bool) :=
  map (map (fun v => gtb v c)) a.

(** [a.T] *)
Definition T (a : ndarray) : ndarray :=
  tabulate (cols a) (fun j => tabulate (rows a) (fun i => get a i j)).

(** [np.array(img, dtype=float)] for a [uint8] image. *)
Definition astype_float (img : list (list Z)) : ndarray :=
  map (map (fun p => of_Z p)) img.

(** Left-to-right accumulation [f 0 + f 1 + ... + f (n-1)]. *)
Fixpoint sum_range (n : nat) (f : nat -> Qc) : Qc :=
  match n with
  | O => Q2Qc 0
  | S k => (sum_range k f + f k)%Qc
  end.


End Np.

(* ================================================================== *)
(** ** scipy.ndimage.correlate *)
(* ================================================================== *)

Module Ndimage.
Import Np.

(** Boundary handling of the default [mode='reflect']: the input is
    extended by mirroring about the edge of the last pixel,
    [d c b a | a b c d | d c b a].  [reflect n i] is the index inside
    [0 .. n-1] that position [i] of the extended line reads. *)
Definition reflect (n : nat) (i : Z) : nat :=
  let len := Z.of_nat n in
  if len <=? 1 then O
  else
    let m := i mod (2 * len) in
    Z.to_nat (if m <? len then m else 2 * len - 1 - m).

(** [ndimage.correlate(input, weights)] with the defaults [output=None],
    [mode='reflect'], [cval=0.0], [origin=0]: the kernel is centred on
    the pixel at kernel index [size // 2] along each axis, and the output
    has the shape of the input. *)
Definition correlate_at (input weights : ndarray) (i j : nat) : Qc :=
  let h := rows input in
  let w := cols input in
  let kh := rows weights in
  let kw := cols weights in
  sum_range kh (fun a =>
    sum_range kw (fun b =>
      (get weights a b *
       get input
           (reflect h (Z.of_nat i + Z.of_nat a - Z.of_nat kh / 2))
           (reflect w (Z.of_nat j + Z.of_nat b - Z.of_nat kw / 2)))%Qc)).

Definition correlate (input weights : ndarray) : ndarray :=
  tabulate (rows input) (fun i =>
    tabulate (cols input) (fun j => correlate_at input weights i j)).

End Ndimage.

(* ================================================================== *)
(** ** The image-filter demo: kernels, filtered images, masks *)
(* ================================================================== *)

Module FilterDemo.
Import Np Ndimage.

(** [Filters.append(np.ones((11,11))/121)] *)
Definition filter_average : ndarray :=
  div_scalar (ones2 11 11) (of_Z 121).

(** [Filters.append(np.array([np.ones(11), np.zeros(11), -1*np.ones(11)]))] *)
Definition filter_horizontal : ndarray :=
  [ones 11; zeros 11; scale (of_Z (-1)) (ones 11)].

(** [Filters.append(Filters[-1].T)] *)
Definition filter_vertical : ndarray := T filter_horizontal.

Definition Filters : list ndarray :=
  [filter_average; filter_horizontal; filter_vertical].

(** [filtered = [ndimage.correlate(img_f, filt) for filt in Filters]] *)
Definition filtered (img_f : ndarray) : list ndarray :=
  map (fun filt => correlate img_f filt) Filters.

Definition filtered_n (img_f : ndarray) (n : nat) : ndarray :=
  nth n (filtered img_f) [].

(** [filtered[n] > 125] *)
Definition threshold : Qc := of_Z 125.

Definition mask (img_f : ndarray) (n : nat) : list (list bool) :=
  gt_scalar (filtered_n img_f n) threshold.

(** [img[i, j]] of the [uint8] source image, and a sum of integers. *)
Definition pixel (img : list (list Z)) (i j : nat) : Z :=
  nth j (nth i img []) 0.

Fixpoint sumZ (n : nat) (f : nat -> Z) : Z :=
  match n with
  | O => 0
  | S k => sumZ k f + f k
  end.

(** The specification's reading of the averaging filter: the arithmetic
    mean of the 11 x 11 neighbourhood of the source image centred at
    [(i, j)], that is the sum of the 121 source pixels divided by 121. *)
Definition neighbourhood_mean (img : list (list Z)) (i j : nat) : Qc :=
  (of_Z (sumZ 11 (fun a => sumZ 11 (fun b =>
      pixel img (i - 5 + a) (j - 5 + b))))
   / of_Z 121)%Qc.


End FilterDemo.

(* ================================================================== *)
(** ** Python: exceptions, sequencing of effects, [os.path.join] *)
(* ================================================================== *)

Module Py.

(** The exceptions the two scripts can meet. *)
Inductive exn : Type :=
| ImportError (name : string)
| OSError (filename : string).

(** A statement run from state [s] either completes with a value and a new
    state or raises; the state reached when the exception was raised is
    kept, so that what was printed, drawn or written before is visible. *)
Inductive result (S A : Type) : Type :=
| Ok (a : A) (s : S)
| Raise (e : exn) (s : S).
Arguments Ok {S A} a s.
Arguments Raise {S A} e s.

Definition M (S A : Type) : Type := S -> result S A.

Definition ret {S A} (a : A) : M S A := fun s => Ok a s.

Definition bind {S A B} (m : M S A) (k : A -> M S B) : M S B :=
  fun s =>
    match m s with
    | Ok a s' => k a s'
    | Raise e s' => Raise e s'
    end.

Definition raise {S A} (e : exn) : M S A := fun s => Raise e s.
Definition gets {S A} (f : S -> A) : M S A := fun s => Ok (f s) s.
Definition modify {S} (f : S -> S) : M S unit := fun s => Ok tt (f s).

Definition final {S A} (r : result S A) : S :=
  match r with Ok _ s => s | Raise _ s => s end.

Definition is_ok {S A} (r : result S A) : bool :=
  match r with Ok _ _ => true | Raise _ _ => false end.

(** [try: body except ImportError: handler] *)
Definition try_except_ImportError {S A} (body handler : M S A) : M S A :=
  fun s =>
    match body s with
    | Raise (ImportError _) s' => handler s'
    | r => r
    end.

(** An expression statement that only names a function, such as
    [plt.tight_layout] written without parentheses: the attribute is looked
    up, the function object is dropped, and the function does not run. *)
Definition name_only {S A} (f : M S A) : M S unit := ret tt.

(** The value of a keyword argument: the default when it is left out. *)
Definition default {A} (d : A) (o : option A) : A :=
  match o with Some v => v | None => d end.

(** [posixpath.join(a, b)] *)
Definition startswith_sep (s : string) : bool :=
  match s with
  | String c _ => Ascii.eqb c "/"
  | EmptyString => false
  end.

Fixpoint endswith_sep (s : string) : bool :=
  match s with
  | EmptyString => false
  | String c EmptyString => Ascii.eqb c "/"
  | String _ r => endswith_sep r
  end.

Definition os_path_join (a b : string) : string :=
  if startswith_sep b then b
  else if String.eqb a "" || endswith_sep a then (a ++ b)%string
  else (a ++ "/" ++ b)%string.

End Py.

Declare Scope py_scope.
Delimit Scope py_scope with py.
Notation "x <- m ;; k" := (Py.bind m (fun x => k))
  (at level 61, m at next level, right associativity) : py_scope.
Notation "m ;; k" := (Py.bind m (fun _ => k))
  (at level 61, right associativity) : py_scope.

(* ================================================================== *)
(** ** matplotlib.pyplot, seaborn, pandas plotting: the current figure *)
(* ================================================================== *)

Module Plt.
Import Py Np.

Definition limits : Type := (Qc * Qc)%type.

Inductive image : Type :=
| ImU8 (px : list (list Z))
| ImF (px : ndarray)
| ImB (px : list (list bool)).

(** What a plotting call puts on the figure, with the arguments of the
    call. *)
Inductive artist : Type :=
| Scatter (x y s : list Qc)
| Hist (x : list Qc) (bins : nat) (density : bool)
| Boxplot (x : list Qc) (sym : string) (vert : bool)
| Errorbar (x y : list Z) (yerr : list Qc) (fmt : string) (capsize capthick : Z)
| HLines (y xmin xmax : Qc) (linestyles colors : string)
| AxHLine (y : Qc) (ls color : string)
| AxVLine (x : Qc) (ls color : string)
| Bar (values : ndarray) (columns : list string)
| Pie (x : list Z) (explode : list Qc) (labels : list string)
      (autopct : string) (shadow : bool) (startangle : Z)
| Surface (start stop step : Qc) (cmap : string)
| Wireframe (delta : Qc) (rstride cstride : Z)
| Colorbar
| Imshow (row col : nat) (im : image).

(** The current figure with its current axes. *)
Record Figure : Type := mkFigure {
  fig_xlabel : string;
  fig_ylabel : string;
  fig_title : string;
  fig_xlim : limits;
  fig_ylim : limits;
  fig_tight : bool;            (* has [tight_layout()] been applied? *)
  fig_props : list string;     (* colormap, aspect, hidden axes, size *)
  fig_artists : list artist
}.

Definition new_figure : Figure :=
  mkFigure "" "" "" (Q2Qc 0, Q2Qc 1) (Q2Qc 0, Q2Qc 1) false [] [].

(** What the process can observe besides the random generator: the current
    figure, the style settings, the files written with the resolution they
    were saved at, which paths can be written, the lines printed and the
    figures displayed. *)
Record Session : Type := mkSession {
  fig : Figure;
  rc : list (string * string);
  files : list (string * (Figure * Z));
  writable : string -> bool;
  stdout : list string;
  shown : list Figure
}.

Definition with_fig (f : Figure -> Figure) (s : Session) : Session :=
  mkSession (f (fig s)) (rc s) (files s) (writable s) (stdout s) (shown s).

Definition with_rc (f : list (string * string) -> list (string * string))
  (s : Session) : Session :=
  mkSession (fig s) (f (rc s)) (files s) (writable s) (stdout s) (shown s).

(** The file at [path], if one was written. *)
Fixpoint lookup_file (path : string) (fs : list (string * (Figure * Z)))
  : option (Figure * Z) :=
  match fs with
  | [] => None
  | (p, c) :: rest => if String.eqb p path then Some c else lookup_file path rest
  end.

(** The optional styling module: a function that sets the fonts and one
    that saves and displays the figure under a name. *)
Record Style : Type := mkStyle {
  style_setFonts : Z -> M Session unit;
  style_showData : string -> M Session unit
}.

(** The libraries behind the scripts whose inner workings the scripts do not
    fix: the generator behind [np.random], the way matplotlib rescales the
    axes when something is drawn, and the test image of scikit-image. *)
Class Library : Type := mkLibrary {
  rng_state : Type;
  mt_seed : Z -> rng_state;
  mt_normal : rng_state -> Qc * rng_state;
  mt_uniform : rng_state -> Qc * rng_state;
  autoscale : Figure -> artist -> limits * limits;
  camera : list (list Z)
}.

End Plt.

Module Pyplot.
Import Py Np Plt.

Section Calls.
Context {L : Library}.

Local Open Scope py_scope.

Definition set_xlabel (v : string) (f : Figure) : Figure :=
  mkFigure v (fig_ylabel f) (fig_title f) (fig_xlim f) (fig_ylim f)
           (fig_tight f) (fig_props f) (fig_artists f).

Definition set_ylabel (v : string) (f : Figure) : Figure :=
  mkFigure (fig_xlabel f) v (fig_title f) (fig_xlim f) (fig_ylim f)
           (fig_tight f) (fig_props f) (fig_artists f).

Definition set_title (v : string) (f : Figure) : Figure :=
  mkFigure (fig_xlabel f) (fig_ylabel f) v (fig_xlim f) (fig_ylim f)
           (fig_tight f) (fig_props f) (fig_artists f).

Definition set_xlim (v : limits) (f : Figure) : Figure :=
  mkFigure (fig_xlabel f) (fig_ylabel f) (fig_title f) v (fig_ylim f)
           (fig_tight f) (fig_props f) (fig_artists f).

Definition set_ylim (v : limits) (f : Figure) : Figure :=
  mkFigure (fig_xlabel f) (fig_ylabel f) (fig_title f) (fig_xlim f) v
           (fig_tight f) (fig_props f) (fig_artists f).

Definition set_tight (f : Figure) : Figure :=
  mkFigure (fig_xlabel f) (fig_ylabel f) (fig_title f) (fig_xlim f)
           (fig_ylim f) true (fig_props f) (fig_artists f).

Definition add_prop (p : string) (f : Figure) : Figure :=
  mkFigure (fig_xlabel f) (fig_ylabel f) (fig_title f) (fig_xlim f)
           (fig_ylim f) (fig_tight f) (fig_props f ++ [p]) (fig_artists f).

(** Drawing adds the artist and lets matplotlib rescale both axes. *)
Definition add_artist (a : artist) (f : Figure) : Figure :=
  mkFigure (fig_xlabel f) (fig_ylabel f) (fig_title f)
           (fst (autoscale f a)) (snd (autoscale f a))
           (fig_tight f) (fig_props f) (fig_artists f ++ [a]).

Definition plt_xlabel (v : string) : M Session unit := modify (with_fig (set_xlabel v)).
Definition plt_ylabel (v : string) : M Session unit := modify (with_fig (set_ylabel v)).
Definition plt_title (v : string) : M Session unit := modify (with_fig (set_title v)).
Definition plt_xlim (v : limits) : M Session unit := modify (with_fig (set_xlim v)).
Definition plt_ylim (v : limits) : M Session unit := modify (with_fig (set_ylim v)).
Definition plt_tight_layout : M Session unit := modify (with_fig set_tight).
Definition plt_prop (p : string) : M Session unit := modify (with_fig (add_prop p)).
Definition plt_draw (a : artist) : M Session unit := modify (with_fig (add_artist a)).

(** [plt.gca().get_xlim()] and [plt.gca().set_xlim(xlim)] *)
Definition gca_get_xlim : M Session limits := gets (fun s => fig_xlim (fig s)).
Definition gca_set_xlim (v : limits) : M Session unit := plt_xlim v.

(** [plt.figure(...)], [plt.subplots(...)] and [DataFrame.plot] start a new
    figure, which becomes the current one. *)
Definition plt_figure (p : string) : M Session unit :=
  modify (with_fig (fun _ => add_prop p new_figure)).

(** [plt.savefig(fname, dpi=dpi)]: the file-write primitive; it raises when
    the path cannot be written. *)
Definition plt_savefig (fname : string) (dpi : Z) : M Session unit :=
  fun s =>
    if writable s fname
    then Ok tt (mkSession (fig s) (rc s) ((fname, (fig s, dpi)) :: files s)
                          (writable s) (stdout s) (shown s))
    else Raise (OSError fname) s.

Definition print (line : string) : M Session unit :=
  modify (fun s => mkSession (fig s) (rc s) (files s) (writable s)
                             (stdout s ++ [line]) (shown s)).

Definition plt_show : M Session unit :=
  modify (fun s => mkSession (fig s) (rc s) (files s) (writable s)
                             (stdout s) (shown s ++ [fig s])).

Definition plt_close : M Session unit := modify (with_fig (fun _ => new_figure)).

(** [sns.set(context=..., style=..., palette=...)] and [sns.set_style(...)] *)
Definition sns_set (context style palette : string) : M Session unit :=
  modify (with_rc (fun _ => [("context", context); ("style", style);
                             ("palette", palette)]%string)).

Definition sns_set_style (style : string) : M Session unit :=
  modify (with_rc (fun r => ("style", style)%string :: r)).

End Calls.
End Pyplot.

(* ================================================================== *)
(** ** The process: random generator, importable modules, session *)
(* ================================================================== *)

Module Process.
Import Py Np Plt.

(** An array handed out by [np.random]. *)
Inductive sample : Type :=
| Sample1 (x : list Qc)
| Sample2 (x : ndarray).

Section World.
Context {L : Library}.

(** [rng] is the state of numpy's global generator; [drawn] lists, oldest
    first, the arrays the generator has handed out; [modules] tells which
    styling modules can be imported. *)
Record World : Type := mkWorld {
  rng : rng_state;
  drawn : list sample;
  modules : string -> option Style;
  sess : Session
}.

(** Plotting, printing and saving act on the session only. *)
Definition plt {A} (m : M Session A) : M World A :=
  fun w =>
    match m (sess w) with
    | Ok a s => Ok a (mkWorld (rng w) (drawn w) (modules w) s)
    | Raise e s => Raise e (mkWorld (rng w) (drawn w) (modules w) s)
    end.

(** [from name import ...] *)
Definition import_from (name : string) : M World Style :=
  fun w =>
    match modules w name with
    | Some st => Ok st w
    | None => Raise (ImportError name) w
    end.

(** [n] successive draws. *)
Fixpoint draws (step : rng_state -> Qc * rng_state) (n : nat) (s : rng_state)
  : list Qc * rng_state :=
  match n with
  | O => ([], s)
  | S k =>
      let (v, s1) := step s in
      let (vs, s2) := draws step k s1 in
      (v :: vs, s2)
  end.

(** [h] rows of [w] draws, row by row. *)
Fixpoint draw_rows (step : rng_state -> Qc * rng_state) (h w : nat)
  (s : rng_state) : ndarray * rng_state :=
  match h with
  | O => ([], s)
  | S k =>
      let (r, s1) := draws step w s in
      let (rs, s2) := draw_rows step k w s1 in
      (r :: rs, s2)
  end.

(** [np.random.seed(n)] *)
Definition np_random_seed (n : Z) : M World unit :=
  modify (fun w => mkWorld (mt_seed n) (drawn w) (modules w) (sess w)).

(** [np.random.randn(n)] *)
Definition np_random_randn (n : nat) : M World (list Qc) :=
  fun w =>
    let (x, s) := draws mt_normal n (rng w) in
    Ok x (mkWorld s (drawn w ++ [Sample1 x]) (modules w) (sess w)).

(** [np.random.rand(h, w)] *)
Definition np_random_rand (h c : nat) : M World ndarray :=
  fun w =>
    let (x, s) := draw_rows mt_uniform h c (rng w) in
    Ok x (mkWorld s (drawn w ++ [Sample2 x]) (modules w) (sess w)).

End World.
End Process.

(* ================================================================== *)
(** ** sap/code_quantlets/SAP_show_plots.py *)
(* ================================================================== *)

Module SAP_show_plots.
Import Py Np Plt Pyplot Process.

Section Script.
Context {L : Library}.

Local Open Scope string_scope.
Local Open Scope py_scope.

(** The bindings of the [except ImportError] branch:
    a [setFonts] that takes any arguments and returns at once, and a
    [showData] that takes any arguments, calls [plt.show()] and returns. *)
Definition fallback_style : Style :=
  mkStyle (fun _ => ret tt) (fun _ => plt_show ;; ret tt).

(** [try: from utilities.SAP_mystyle import setFonts, showData
     except ImportError: ...] *)
Definition import_style : M World Style :=
  try_except_ImportError (import_from "utilities.SAP_mystyle")
                         (ret fallback_style).

(** [printout(outFile, xlabel='', ylabel='', title='', outDir='.')]; an
    argument the caller leaves out is [None] and takes its default. *)
Definition printout (outFile : string)
  (xlabel ylabel title outDir : option string) : M Session unit :=
  let xlabel := default ""%string xlabel in
  let ylabel := default ""%string ylabel in
  let title := default ""%string title in
  let outDir := default "."%string outDir in
  plt_xlabel xlabel ;;
  plt_ylabel ylabel ;;
  plt_title title ;;
  name_only plt_tight_layout ;;
  xlim <- gca_get_xlim ;;
  plt_draw (HLines (of_Z 0) (fst xlim) (snd xlim) "--" "#999999") ;;
  gca_set_xlim xlim ;;
  let saveTo := os_path_join outDir outFile in
  plt_savefig saveTo 200 ;;
  print ("OutDir: " ++ outDir) ;;
  print ("Figure saved to " ++ outFile) ;;
  plt_show ;;
  plt_close.

(** The data of the errorbar plot: [x = np.arange(5)], [y = x**2],
    [errorBar = x/2]. *)
Definition errorbar_x : list Z := arange 5.
Definition errorbar_y : list Z := int_pow errorbar_x 2.
Definition errorbar_errorBar : list Qc := true_divide errorbar_x 2.

(** The data of the pie chart. *)
Definition pie_txtLabels : list string := ["Cats"; "Dogs"; "Frogs"; "Others"]%string.
Definition pie_fractions : list Z := [45; 30; 15; 10].
Definition pie_offsets : list Qc := [of_Z 0; lit 0.05; of_Z 0; of_Z 0].

(** [df2['c']*500] and the like: column [k] of a table, scaled. *)
Definition column (k : nat) (df : ndarray) : list Qc :=
  map (fun r => nth k r (of_Z 0)) df.

(** [simplePlots()] with the module's [setFonts] and [showData]. *)
Definition simplePlots (style : Style) : M World unit :=
  np_random_seed 1234 ;;
  x <- np_random_randn 500 ;;
  plt (sns_set "notebook" "ticks" "muted") ;;
  plt (style_setFonts style 16) ;;
  plt (plt_draw (Scatter (map of_Z (arange (length x))) x [])) ;;
  plt (plt_xlim (of_Z 0, of_Z (Z.of_nat (length x)))) ;;
  plt (printout "scatterPlot.png" (Some "Datapoints") (Some "Values") (Some "Scatter") None) ;;
  plt (plt_draw (Hist x 10 false)) ;;
  plt (printout "histogram_plain.png" (Some "Data Values") (Some "Frequency")
                (Some "Histogram, default settings") None) ;;
  plt (plt_draw (Hist x 25 true)) ;;
  plt (printout "density_histogram.png" (Some "Data Values")
                (Some "Probability") (Some "Density Histogram, 25 bins") None) ;;
  plt (plt_draw (Boxplot x "*" true)) ;;
  plt (printout "boxplot.png" (Some "Values") None (Some "Boxplot") None) ;;
  plt (plt_draw (Boxplot x "*" false)) ;;
  plt (plt_title "Boxplot, horizontal") ;;
  plt (plt_xlabel "Values") ;;
  plt plt_show ;;
  let x := errorbar_x in
  let y := errorbar_y in
  let errorBar := errorbar_errorBar in
  plt (plt_draw (Errorbar x y errorBar "o" 5 3)) ;;
  plt (plt_xlim (lit (-0.2), lit 4.2)) ;;
  plt (plt_ylim (lit (-0.2), of_Z 19)) ;;
  plt (printout "Errorbars.png" (Some "Data Values") (Some "Measurements")
                (Some "Errorbars") None) ;;
  np_random_seed 1234 ;;
  plt (style_setFonts style 20) ;;
  df <- np_random_rand 10 4 ;;
  plt (plt_figure "bar" ;; plt_draw (Bar df ["a"; "b"; "c"; "d"]%string)) ;;
  plt (style_showData style "barplot.png") ;;
  df2 <- np_random_rand 50 3 ;;
  plt (plt_figure "scatter" ;;
       plt_draw (Scatter (column 0 df2) (column 1 df2)
                         (map (fun c => (c * of_Z 500)%Qc) (column 2 df2)))) ;;
  plt (plt_draw (AxHLine (of_Z 0) "--" "#999999")) ;;
  plt (plt_draw (AxVLine (of_Z 0) "--" "#999999")) ;;
  plt (printout "bivariate.png" None None None None) ;;
  plt (sns_set_style "ticks") ;;
  let txtLabels := pie_txtLabels in
  let fractions := pie_fractions in
  let offsets := pie_offsets in
  plt (plt_draw (Pie fractions offsets txtLabels "%1.1f%%" true 90)) ;;
  plt (plt_prop "axis equal") ;;
  plt (printout "piePlot.png" None None (Some " ") None).

(** [show3D()]; the surface [z = sin(sqrt(x^2 + y^2))] and matplotlib's
    test data are kept by the parameters that generate them. *)
Definition show3D (style : Style) : M World unit :=
  plt (plt_figure "figsize=figaspect(0.5)") ;;
  plt (style_setFonts style 16) ;;
  plt (plt_draw (Surface (of_Z (-5)) (of_Z 5) (lit 0.1) "GnBu")) ;;
  plt (plt_prop "zlim3d=(-1.01, 1.01)") ;;
  plt (plt_draw Colorbar) ;;
  plt (plt_draw (Wireframe (lit 0.05) 10 10)) ;;
  plt (style_showData style "3dGraph.png").

(** The script, run as [__main__]: the import, then both demos. *)
Definition main : M World unit :=
  style <- import_style ;;
  simplePlots style ;;
  show3D style.

End Script.
End SAP_show_plots.

(* ================================================================== *)
(** ** src/figures/F5_30_filter_images.py *)
(* ================================================================== *)

Module F5_30_filter_images.
Import Py Np Plt Pyplot Process FilterDemo.

Section Script.
Context {L : Library}.

Local Open Scope string_scope.
Local Open Scope py_scope.

(** The script from its first statement to its last.  The styling module
    is imported on line 15 with a plain [from ... import ...]. *)
Definition main : M World unit :=
  style <- import_from "utilities.my_style" ;;
  let img := camera in
  let img_f := astype_float img in
  plt (plt_figure "subplots(3,2) figsize=(6,8)") ;;
  plt (plt_prop "gray") ;;
  plt (plt_draw (Imshow 0 0 (ImU8 img))) ;;
  plt (plt_draw (Imshow 0 1 (ImF (filtered_n img_f 0)))) ;;
  plt (plt_draw (Imshow 1 0 (ImF (filtered_n img_f 1)))) ;;
  plt (plt_draw (Imshow 1 1 (ImF (filtered_n img_f 2)))) ;;
  plt (plt_draw (Imshow 2 0 (ImB (mask img_f 1)))) ;;
  plt (plt_draw (Imshow 2 1 (ImB (mask img_f 2)))) ;;
  plt (plt_prop "axes hidden") ;;
  plt plt_tight_layout ;;
  let out_file := "filter_demo.jpg"%string in
  plt (style_showData style out_file).

End Script.
End F5_30_filter_images.

(* ================================================================== *)
(** ** What the specification speaks about *)
(* ================================================================== *)

Module Spec.
Import Py Np Plt Pyplot Process.

(** Python's [sum] of a list of integers. *)
Definition py_sum (l : list Z) : Z := fold_left Z.add l 0.

Section Samples.
Context {L : Library}.

(** The arrays [np.random] hands out during a run: those in the log at the
    end that were not there at the start. *)
Definition new_samples {A} (w : World) (r : result World A) : list sample :=
  skipn (length (drawn w)) (drawn (final r)).

(** The three arrays of the gallery as the generator alone determines them:
    500 normal draws after [seed(1234)]; a 10 x 4 table of uniform draws
    after the second [seed(1234)]; a 50 x 3 table drawn next. *)
Definition gallery_samples : list sample :=
  let x := draws mt_normal 500 (mt_seed 1234) in
  let df := draw_rows mt_uniform 10 4 (mt_seed 1234) in
  let df2 := draw_rows mt_uniform 50 3 (snd df) in
  [Sample1 (fst x); Sample2 (fst df); Sample2 (fst df2)].

(** A run follows the gallery's samples from a log [d] when the log it
    ends with is [d] extended by an initial segment of [gallery_samples],
    and by all of them when the run completed. *)
Definition follows {A} (d : list sample) (r : result World A) : Prop :=
  (exists j, drawn (final r) = d ++ firstn j gallery_samples) /\
  (is_ok r = true -> drawn (final r) = d ++ gallery_samples).

(** A statement is safe when, run in a session where every path can be
    written, it completes and leaves such a session. *)
Definition all_writable (s : Session) : Prop := forall p, writable s p = true.

Definition safe {A} (m : M Session A) : Prop :=
  forall s, all_writable s -> exists a s', m s = Ok a s' /\ all_writable s'.

Definition wsafe {A} (m : M World A) : Prop :=
  forall w, all_writable (sess w) ->
            exists a w', m w = Ok a w' /\ all_writable (sess w') /\
                         modules w' = modules w.

Definition safe_style (st : Style) : Prop :=
  (forall n, safe (style_setFonts st n)) /\ (forall f, safe (style_showData st f)).

(** The figure [printout] hands to [savefig], built from the figure [f] it
    finds: labels and title set, the line at y = 0 drawn, the x-limits set
    back. *)
Definition printed_figure (xlabel ylabel title : option string)
  (f : Figure) : Figure :=
  let g := set_title (default ""%string title)
             (set_ylabel (default ""%string ylabel)
                (set_xlabel (default ""%string xlabel) f)) in
  set_xlim (fig_xlim f)
    (add_artist (HLines (of_Z 0) (fst (fig_xlim f)) (snd (fig_xlim f))
                        "--" "#999999") g).

End Samples.
End Spec.

(* ================================================================== *)
(** ** A small instance to run the scripts on *)
(* ================================================================== *)

Module Sample.
Import Py Np Plt Pyplot Process.

(** A linear congruential generator stands in for numpy's; drawing a
    horizontal line widens the x-range by a twentieth on each side and
    makes the y-range contain the line; the image is 2 x 3. *)
Definition lcg (s : Z) : Z := (s * 1103515245 + 12345) mod 2 ^ 31.

Definition widen (l : limits) : limits :=
  ((fst l - (snd l - fst l) / of_Z 20)%Qc,
   (snd l + (snd l - fst l) / of_Z 20)%Qc).

Definition library : Library :=
  mkLibrary Z
    (fun n => n)
    (fun s => (of_Z (lcg s mod 7 - 3), lcg s))
    (fun s => ((of_Z (lcg s mod 10) / of_Z 10)%Qc, lcg s))
    (fun f a =>
       match a with
       | HLines y xmin xmax _ _ => (widen (xmin, xmax), widen (y, y))
       | _ => (fig_xlim f, fig_ylim f)
       end)
    [[10; 200; 30]; [255; 0; 77]].

(** A session in which every path can be written, with a scatter plot on
    the current figure. *)
Definition session : Session :=
  mkSession (mkFigure "" "" "" (of_Z 0, of_Z 500) (of_Z (-3), of_Z 3)
                      false [] [Scatter [of_Z 0; of_Z 1] [of_Z 2; of_Z 1] []])
            [] [] (fun _ => true) [] [].

(** A process in which no styling module can be imported. *)
Definition world_without_style (seed : Z) : World (L := library) :=
  mkWorld (L := library) seed [] (fun _ => None) session.

Definition img_2x3 : ndarray :=
  astype_float [[10; 200; 30]; [255; 0; 77]].

Definition img_11x11 : list (list Z) :=
  tabulate 11 (fun i => tabulate 11 (fun j => Z.of_nat (i * 11 + j))).

End Sample.

(* ================================================================== *)
(** ** Further notions used to describe what the scripts do *)
(* ================================================================== *)

Module Behaviour.
Import Py Np Ndimage FilterDemo Plt Pyplot Process SAP_show_plots Spec.

(** A [uint8] image: every pixel is between 0 and 255. *)
Definition uint8_image (img : list (list Z)) : Prop :=
  Forall (Forall (fun p => 0 <= p <= 255)) img.


(** The sum of the 11 pixels of row [i] centred on column [j], and of the
    11 pixels of column [j] centred on row [i]. *)
Definition row_window (img : list (list Z)) (i j : nat) : Z :=
  sumZ 11 (fun b => pixel img i (j - 5 + b)).

Definition col_window (img : list (list Z)) (i j : nat) : Z :=
  sumZ 11 (fun a => pixel img (i - 5 + a) j).

(** A mask that is [False] at every pixel. *)
Definition nowhere (m : list (list bool)) : Prop :=
  forall i j : nat, nth j (nth i m []) false = false.

(** An image whose rows are all alike, and one whose columns are. *)
Definition equal_rows_2x3 : ndarray :=
  astype_float [[10; 200; 30]; [10; 200; 30]].

Definition equal_columns_2x3 : ndarray :=
  astype_float [[7; 7; 7]; [250; 250; 250]].

(** A session in which no path can be written. *)
Definition read_only_session : Session :=
  mkSession (fig Sample.session) [] [] (fun _ => false) [] [].

(** The state of the generator after a completed run of the gallery. *)
Definition gallery_final_rng {L : Library} : rng_state :=
  snd (draw_rows mt_uniform 50 3 (snd (draw_rows mt_uniform 10 4 (mt_seed 1234)))).

(** A statement leaves a trace [(names, lines, n)] when, run in a session
    where every path can be written, it completes, writes files at [names]
    (in this order) and no others, prints [lines] and nothing else, and
    displays [n] figures. *)
Definition traces {A} (names lines : list string) (n : nat)
  (m : M Session A) : Prop :=
  forall s, all_writable s ->
    exists a s',
      m s = Ok a s' /\ all_writable s' /\
      map fst (files s') = rev names ++ map fst (files s) /\
      stdout s' = stdout s ++ lines /\
      length (shown s') = (length (shown s) + n)%nat.

Definition wtraces {L : Library} {A} (names lines : list string) (n : nat)
  (m : M World A) : Prop :=
  forall w, all_writable (sess w) ->
    exists a w',
      m w = Ok a w' /\ all_writable (sess w') /\
      map fst (files (sess w')) = rev names ++ map fst (files (sess w)) /\
      stdout (sess w') = stdout (sess w) ++ lines /\
      length (shown (sess w')) = (length (shown (sess w)) + n)%nat.

(** The files and the report of a gallery run on the fallbacks. *)
Definition gallery_files : list string :=
  ["./scatterPlot.png"; "./histogram_plain.png"; "./density_histogram.png";
   "./boxplot.png"; "./Errorbars.png"; "./bivariate.png";
   "./piePlot.png"]%string.

Definition gallery_report : list string :=
  ["OutDir: ."; "Figure saved to scatterPlot.png";
   "OutDir: ."; "Figure saved to histogram_plain.png";
   "OutDir: ."; "Figure saved to density_histogram.png";
   "OutDir: ."; "Figure saved to boxplot.png";
   "OutDir: ."; "Figure saved to Errorbars.png";
   "OutDir: ."; "Figure saved to bivariate.png";
   "OutDir: ."; "Figure saved to piePlot.png"]%string.

(** A saved file is in the style of [printout] when it was saved at 200 dpi
    and its figure carries a dashed grey line at y = 0. *)
Definition printout_style (entry : string * (Figure * Z)) : Prop :=
  snd (snd entry) = 200 /\
  exists xmin xmax : Qc,
    In (HLines (of_Z 0) xmin xmax "--" "#999999")
       (fig_artists (fst (snd entry))).

(** A statement marks its files when, run in a session where every path
    can be written, it completes and every file it adds is in the style of
    [printout]. *)
Definition marks {A} (m : M Session A) : Prop :=
  forall s, all_writable s ->
    exists a s' new,
      m s = Ok a s' /\ all_writable s' /\
      files s' = new ++ files s /\ Forall printout_style new.

Definition wmarks {L : Library} {A} (m : M World A) : Prop :=
  forall w, all_writable (sess w) ->
    exists a w' new,
      m w = Ok a w' /\ all_writable (sess w') /\
      files (sess w') = new ++ files (sess w) /\ Forall printout_style new.

(** A stand-in for a styling module, to run the scripts with one: its
    font function does nothing, and its display function saves the figure
    under the name it is given, at 100 dpi, and displays it.  In
    [world_with_my_style] only [utilities.my_style] can be imported, in
    [world_with_SAP_mystyle] only [utilities.SAP_mystyle]. *)
Definition my_style : Style :=
  mkStyle (fun _ => ret tt)
          (fun name => (plt_savefig name 100 ;; plt_show)%py).

Definition world_with_my_style : World (L := Sample.library) :=
  mkWorld (L := Sample.library) 7 []
          (fun name => if String.eqb name "utilities.my_style"
                       then Some my_style else None)
          Sample.session.

Definition world_with_SAP_mystyle : World (L := Sample.library) :=
  mkWorld (L := Sample.library) 7 []
          (fun name => if String.eqb name "utilities.SAP_mystyle"
                       then Some my_style else None)
          Sample.session.

(** A statement needs the paths [names] when it leaves writability as it
    is, completes only if every one of them can be written, and can raise
    nothing but the error of writing one of them that cannot. *)
Definition needs_outcome {S A} (writable0 : string -> bool)
  (writable1 : S -> string -> bool) (names : list string)
  (r : result S A) : Prop :=
  match r with
  | Ok _ s' =>
      writable1 s' = writable0 /\
      Forall (fun p => writable0 p = true) names
  | Raise e _ =>
      exists p, In p names /\ e = OSError p /\ writable0 p = false
  end.

Definition needs {A} (names : list string) (m : M Session A) : Prop :=
  forall s, needs_outcome (writable s) writable names (m s).

Definition wneeds {L : Library} {A} (names : list string) (m : M World A)
  : Prop :=
  forall w, needs_outcome (writable (sess w))
                          (fun w' => writable (sess w')) names (m w).

End Behaviour.

Import Np Ndimage FilterDemo.

Example ex_filter_vertical_shape :
  (rows filter_vertical, cols filter_vertical) = (11%nat, 3%nat).
Proof. reflexivity. Qed.

Example ex_reflect :
  map (reflect 4) [-5; -4; -3; -2; -1; 0; 1; 2; 3; 4; 5; 6; 7; 8] =
  [3; 3; 2; 1; 0; 0; 1; 2; 3; 3; 2; 1; 0; 0]%nat.
Proof. reflexivity. Qed.

(* ================================================================== *)
(** ** Lemmas on arrays *)
(* ================================================================== *)


Lemma length_tabulate {A} (n : nat) (f : nat -> A) :
  length (tabulate n f) = n.
Proof. unfold tabulate. now rewrite length_map, length_seq. Qed.

Lemma nth_tabulate {A} (n : nat) (f : nat -> A) (i : nat) (d : A) :
  (i < n)%nat -> nth i (tabulate n f) d = f i.
Proof.
  intros Hi. unfold tabulate.
  rewrite (nth_indep _ d (f O)) by now rewrite length_map, length_seq.
  rewrite (map_nth f (seq 0 n) O i), seq_nth; auto.
Qed.

Lemma tabulate_ext {A} (n : nat) (f g : nat -> A) :
  (forall i, (i < n)%nat -> f i = g i) -> tabulate n f = tabulate n g.
Proof.
  intros H. unfold tabulate. apply map_ext_in.
  intros i Hi. apply in_seq in Hi. apply H. lia.
Qed.

Lemma sum_range_ext (n : nat) (f g : nat -> Qc) :
  (forall i, (i < n)%nat -> f i = g i) -> sum_range n f = sum_range n g.
Proof.
  induction n as [|n IH]; intros H; simpl; [reflexivity|].
  rewrite IH, H; auto.
Qed.

Lemma sum_range_add (n : nat) (f g : nat -> Qc) :
  sum_range n (fun a => (f a + g a)%Qc) = (sum_range n f + sum_range n g)%Qc.
Proof.
  induction n as [|n IH]; simpl.
  - ring.
  - rewrite IH. ring.
Qed.

Lemma sum_range_zero (n : nat) : sum_range n (fun _ => Q2Qc 0) = Q2Qc 0.
Proof. induction n as [|n IH]; simpl; [reflexivity|]. rewrite IH. ring. Qed.

Lemma sum_range_swap (n m : nat) (f : nat -> nat -> Qc) :
  sum_range n (fun a => sum_range m (fun b => f a b)) =
  sum_range m (fun b => sum_range n (fun a => f a b)).
Proof.
  induction n as [|n IH]; simpl.
  - now rewrite sum_range_zero.
  - rewrite IH. now rewrite <- sum_range_add.
Qed.


Lemma reflect_lt (n : nat) (i : Z) : (0 < n)%nat -> (reflect n i < n)%nat.
Proof.
  intros Hn. unfold reflect.
  destruct (Z.leb_spec (Z.of_nat n) 1); [lia|].
  pose proof (Z.mod_pos_bound i (2 * Z.of_nat n) ltac:(lia)) as Hm.
  destruct (Z.ltb_spec (i mod (2 * Z.of_nat n)) (Z.of_nat n)); lia.
Qed.

Lemma reflect_inside (n : nat) (i : Z) :
  0 <= i < Z.of_nat n -> reflect n i = Z.to_nat i.
Proof.
  intros Hi. unfold reflect.
  destruct (Z.leb_spec (Z.of_nat n) 1); [lia|].
  rewrite Z.mod_small by lia.
  destruct (Z.ltb_spec i (Z.of_nat n)); lia.
Qed.

Lemma rect_cols {A} (h w : nat) (a : list (list A)) :
  rect h w a -> (0 < h)%nat -> cols a = w.
Proof.
  intros [Hl Hf] Hh. unfold cols. destruct a as [|r a]; simpl in *; [lia|].
  now inversion Hf.
Qed.

Lemma rect_nth_length {A} (h w : nat) (a : list (list A)) (i : nat) :
  rect h w a -> (i < h)%nat -> length (nth i a []) = w.
Proof.
  intros [Hl Hf] Hi. rewrite Forall_forall in Hf. apply Hf, nth_In. lia.
Qed.

Lemma rect_tabulate {A} (h w : nat) (f : nat -> nat -> A) :
  rect h w (tabulate h (fun i => tabulate w (f i))).
Proof.
  split; [apply length_tabulate|].
  apply Forall_forall. intros r Hr. unfold tabulate in Hr.
  apply in_map_iff in Hr. destruct Hr as [i [<- _]]. apply length_tabulate.
Qed.

Lemma get_tabulate (h w : nat) (f : nat -> nat -> Qc) (i j : nat) :
  (i < h)%nat -> (j < w)%nat ->
  get (tabulate h (fun i => tabulate w (f i))) i j = f i j.
Proof.
  intros Hi Hj. unfold get. now rewrite nth_tabulate, nth_tabulate.
Qed.

Lemma get_T (h w : nat) (a : ndarray) (i j : nat) :
  rect h w a -> (i < h)%nat -> (j < w)%nat -> get (T a) j i = get a i j.
Proof.
  intros Ha Hi Hj. unfold T.
  rewrite (rect_cols h w a Ha) by lia.
  unfold rows. rewrite (proj1 Ha). now rewrite get_tabulate.
Qed.

Lemma T_shape (h w : nat) (a : ndarray) :
  rect h w a -> (0 < h)%nat -> (0 < w)%nat ->
  rect w h (T a).
Proof.
  intros Ha Hh Hw. unfold T.
  rewrite (rect_cols h w a Ha) by lia. unfold rows. rewrite (proj1 Ha).
  apply rect_tabulate.
Qed.

(** Correlation commutes with transposition, for any kernel. *)
Lemma correlate_T (h w kh kw : nat) (img k : ndarray) :
  rect h w img -> rect kh kw k -> (0 < kh)%nat -> (0 < kw)%nat ->
  T (correlate img k) = correlate (T img) (T k).
Proof.
  intros Hi Hk Hkh Hkw.
  destruct h as [|h'].
  { destruct Hi as [Hl _]. apply length_zero_iff_nil in Hl. now subst img. }
  destruct w as [|w'].
  { assert (Hc : cols img = O) by (apply (rect_cols _ _ _ Hi); lia).
    unfold correlate at 2. unfold T at 2. rewrite Hc. simpl.
    unfold T, correlate. rewrite Hc. unfold rows, cols.
    rewrite (proj1 Hi). reflexivity. }
  set (h := S h') in *. set (w := S w') in *.
  assert (Hh : (0 < h)%nat) by (subst h; lia).
  assert (Hw : (0 < w)%nat) by (subst w; lia).
  assert (Hc : cols img = w) by (apply (rect_cols _ _ _ Hi); lia).
  assert (Hr : rows img = h) by apply Hi.
  pose proof (T_shape _ _ _ Hi Hh Hw) as HTi.
  pose proof (T_shape _ _ _ Hk Hkh Hkw) as HTk.
  assert (HcT : cols (T img) = h) by (apply (rect_cols _ _ _ HTi); lia).
  assert (HrT : rows (T img) = w) by apply HTi.
  assert (HcK : cols (T k) = kh) by (apply (rect_cols _ _ _ HTk); lia).
  assert (HrK : rows (T k) = kw) by apply HTk.
  assert (Hck : cols k = kw) by (apply (rect_cols _ _ _ Hk); lia).
  assert (Hrk : rows k = kh) by apply Hk.
  unfold correlate. rewrite Hc, Hr, HcT, HrT.
  unfold T at 1.
  rewrite (rect_cols h w _ (rect_tabulate h w _)) by lia.
  unfold rows at 1. rewrite length_tabulate.
  apply tabulate_ext. intros j Hj. apply tabulate_ext. intros i Hi'.
  rewrite get_tabulate by assumption.
  unfold correlate_at. rewrite Hc, Hr, HcT, HrT, HcK, HrK, Hck, Hrk.
  rewrite sum_range_swap.
  apply sum_range_ext. intros b Hb. apply sum_range_ext. intros a Ha.
  rewrite (get_T kh kw k a b Hk Ha Hb).
  rewrite (get_T h w img _ _ Hi); auto using reflect_lt.
Qed.




Lemma of_Z_add (x y : Z) :
  of_Z (x + y) = (of_Z x + of_Z y)%Qc.
Proof.
  unfold of_Z, Qcplus. apply Q2Qc_eq_iff.
  change (this (Q2Qc (inject_Z x))) with (Qred (inject_Z x)).
  change (this (Q2Qc (inject_Z y))) with (Qred (inject_Z y)).
  now rewrite !Qred_correct, inject_Z_plus.
Qed.

Lemma sum_range_of_Z (n : nat) (f : nat -> Z) :
  sum_range n (fun a => of_Z (f a)) = of_Z (sumZ n f).
Proof.
  induction n as [|n IH]; simpl; [reflexivity|].
  now rewrite IH, of_Z_add.
Qed.


Lemma rect_astype_float (h w : nat) (img : list (list Z)) :
  rect h w img -> rect h w (astype_float img).
Proof.
  intros [Hl Hf]. unfold astype_float. split.
  - now rewrite length_map.
  - apply Forall_map. eapply Forall_impl; [|exact Hf].
    intros r Hr. simpl. now rewrite length_map.
Qed.

Lemma get_astype_float (h w : nat) (img : list (list Z)) (i j : nat) :
  rect h w img -> (i < h)%nat -> (j < w)%nat ->
  get (astype_float img) i j = of_Z (pixel img i j).
Proof.
  intros Hr Hi Hj. unfold get, astype_float, pixel.
  rewrite (nth_indep _ [] (map (fun p => of_Z p) []))
    by (rewrite length_map; destruct Hr; lia).
  rewrite (map_nth (map (fun p => of_Z p)) img [] i).
  rewrite (nth_indep _ (Q2Qc 0) (of_Z 0))
    by (rewrite length_map, (rect_nth_length h w img i Hr Hi); lia).
  now rewrite (map_nth (fun p => of_Z p)).
Qed.

Lemma get_correlate (h w : nat) (img k : ndarray) (i j : nat) :
  rect h w img -> (i < h)%nat -> (j < w)%nat ->
  get (correlate img k) i j = correlate_at img k i j.
Proof.
  intros Hr Hi Hj. unfold correlate.
  rewrite (rect_cols h w img Hr) by lia.
  unfold rows at 1. rewrite (proj1 Hr).
  now rewrite get_tabulate.
Qed.




(** C2: the horizontal-edge kernel is the transpose of the vertical-edge
    kernel, and for every (rectangular) image, transposing the correlation of
    the image with the horizontal-edge kernel gives the correlation of the
    transposed image with the vertical-edge kernel. *)
Theorem edge_filters_commute_with_transpose :
  filter_horizontal = T filter_vertical /\
  forall (h w : nat) (img : ndarray),
    rect h w img ->
    T (correlate img filter_horizontal) = correlate (T img) filter_vertical.
Proof.
  split; [reflexivity|].
  intros h w img Hr. unfold filter_vertical.
  apply (correlate_T h w 3 11 img filter_horizontal Hr); try lia.
  split; [reflexivity|]. repeat constructor.
Qed.


Lemma rect_correlate (h w : nat) (img k : ndarray) :
  rect h w img -> (0 < h)%nat -> rect h w (correlate img k).
Proof.
  intros Hr Hh. unfold correlate.
  rewrite (rect_cols h w img Hr Hh).
  replace (rows img) with h by (symmetry; apply Hr).
  apply rect_tabulate.
Qed.

Lemma gtb_true_iff (v c : Qc) : gtb v c = true <-> (c < v)%Qc.
Proof.
  unfold gtb. rewrite Qclt_alt.
  destruct (c ?= v)%Qc; split; congruence.
Qed.

Lemma nth_gt_scalar (h w : nat) (a : ndarray) (c : Qc) (i j : nat) :
  rect h w a -> (i < h)%nat -> (j < w)%nat ->
  nth j (nth i (gt_scalar a c) []) false = gtb (get a i j) c.
Proof.
  intros Hr Hi Hj. unfold gt_scalar, get.
  rewrite (nth_indep _ [] (map (fun v => gtb v c) []))
    by (rewrite length_map; destruct Hr; lia).
  rewrite (map_nth (map (fun v => gtb v c)) a [] i).
  rewrite (nth_indep _ false (gtb (Q2Qc 0) c))
    by (rewrite length_map, (rect_nth_length h w a i Hr Hi); lia).
  now rewrite (map_nth (fun v => gtb v c)).
Qed.

(** C4: for each of the two edge-filtered outputs ([filtered[1]] and
    [filtered[2]]) and every pixel, the mask [filtered[n] > 125] is [True]
    at that pixel exactly when the filtered value there is strictly greater
    than 125. *)
Theorem threshold_mask_iff_exceeds_125 :
  forall (h w : nat) (img_f : ndarray) (n i j : nat),
    rect h w img_f -> n = 1%nat \/ n = 2%nat ->
    (i < h)%nat -> (j < w)%nat ->
    nth j (nth i (mask img_f n) []) false = true <->
    (of_Z 125 < get (filtered_n img_f n) i j)%Qc.
Proof.
  intros h w img_f n i j Hr Hn Hi Hj.
  unfold mask, threshold.
  assert (Hf : rect h w (filtered_n img_f n)).
  { destruct Hn as [-> | ->]; unfold filtered_n, filtered; simpl nth;
      apply rect_correlate; (assumption || lia). }
  rewrite (nth_gt_scalar h w _ _ i j Hf Hi Hj).
  apply gtb_true_iff.
Qed.


Lemma edge_filters_commute_with_transpose_witness :
  T (correlate Sample.img_2x3 filter_horizontal) = correlate (T Sample.img_2x3) filter_vertical.
Proof.
  apply (proj2 edge_filters_commute_with_transpose 2%nat 3%nat).
  split; [reflexivity | repeat constructor].
Defined.


Example ex_mean_at_centre : neighbourhood_mean Sample.img_11x11 5 5 = of_Z 60.
Proof. apply Qc_is_canon. vm_compute. reflexivity. Qed.

Example ex_horizontal_edge :
  correlate (astype_float [[1; 2; 3]; [4; 5; 6]]) filter_horizontal
  = full 2 3 (of_Z (-33)).
Proof.
  unfold correlate, full, tabulate. cbn [rows cols astype_float map hd length seq].
  repeat (f_equal; try (apply Qc_is_canon; vm_compute; reflexivity)).
Qed.

Example ex_average_at_corner : get (filtered_n (astype_float Sample.img_11x11) 0) 0 0 = Q2Qc (300 # 11).
Proof. apply Qc_is_canon. vm_compute. reflexivity. Qed.

Lemma threshold_mask_iff_exceeds_125_witness :
  nth 1 (nth 0 (mask Sample.img_2x3 1) []) false = true <->
  (of_Z 125 < get (filtered_n Sample.img_2x3 1) 0 1)%Qc.
Proof.
  apply (threshold_mask_iff_exceeds_125 2 3 Sample.img_2x3 1 0 1).
  - split; [reflexivity | repeat constructor].
  - left; reflexivity.
  - lia.
  - lia.
Defined.

(* ================================================================== *)
(** ** The plot gallery: data of the errorbar and pie demos *)
(* ================================================================== *)

Import Py Plt Pyplot Process SAP_show_plots Spec.

(** C5: in the errorbar demo the x-values are [0,1,2,3,4], the plotted
    y-values are their squares [0,1,4,9,16] and the error magnitudes are
    their halves [0,0.5,1,1.5,2]. *)
Theorem errorbar_demo_data :
  errorbar_x = [0; 1; 2; 3; 4] /\
  errorbar_y = [0; 1; 4; 9; 16] /\
  errorbar_errorBar = [of_Z 0; lit 0.5; of_Z 1; lit 1.5; of_Z 2].
Proof.
  split; [reflexivity|]. split; [reflexivity|].
  unfold errorbar_errorBar, errorbar_x, true_divide, arange. simpl map.
  repeat (f_equal; try (apply Qc_is_canon; reflexivity)).
Qed.

(** C8: the pie fractions are [45,30,15,10] and sum to 100; the wedge at
    index 1 has explode offset 0.05, which is not zero, and it is the only
    wedge whose offset is not zero. *)
Theorem pie_demo_data :
  pie_fractions = [45; 30; 15; 10] /\
  py_sum pie_fractions = 100 /\
  length pie_offsets = length pie_fractions /\
  nth 1 pie_offsets (of_Z 0) = lit 0.05 /\
  forall i : nat, nth i pie_offsets (of_Z 0) <> of_Z 0 <-> i = 1%nat.
Proof.
  repeat split; try reflexivity.
  - intros H. destruct i as [|[|[|[|i]]]]; simpl in H; try reflexivity;
      exfalso; apply H; try reflexivity.
    destruct i; reflexivity.
  - intros ->. simpl. intros H. apply (f_equal this) in H. discriminate H.
Qed.

(* ================================================================== *)
(** ** The figure persistence helper [printout] *)
(* ================================================================== *)

Lemma lookup_file_head (path : string) (c : Figure * Z)
  (fs : list (string * (Figure * Z))) :
  lookup_file path ((path, c) :: fs) = Some c.
Proof. simpl. now rewrite String.eqb_refl. Qed.


Lemma printout_writable {L : Library} (outFile : string)
  (xlabel ylabel title outDir : option string) (s : Session) :
  writable s (os_path_join (default "."%string outDir) outFile) = true ->
  printout outFile xlabel ylabel title outDir s =
  Ok tt (mkSession new_figure (rc s)
           ((os_path_join (default "."%string outDir) outFile,
             (printed_figure xlabel ylabel title (fig s), 200)) :: files s)
           (writable s)
           (stdout s ++ [("OutDir: " ++ default "."%string outDir)%string]
                     ++ [("Figure saved to " ++ outFile)%string])
           (shown s ++ [printed_figure xlabel ylabel title (fig s)])).
Proof.
  intros Hw. unfold printout, bind, name_only, ret, plt_xlabel, plt_ylabel,
    plt_title, gca_get_xlim, gca_set_xlim, plt_xlim, plt_draw, plt_savefig,
    print, plt_show, plt_close, modify, gets, with_fig.
  cbn [fig rc files writable stdout shown]. rewrite Hw.
  cbn [fig rc files writable stdout shown].
  now rewrite <- app_assoc.
Qed.

Lemma printout_not_writable {L : Library} (outFile : string)
  (xlabel ylabel title outDir : option string) (s : Session) :
  writable s (os_path_join (default "."%string outDir) outFile) = false ->
  exists s',
    printout outFile xlabel ylabel title outDir s =
    Raise (OSError (os_path_join (default "."%string outDir) outFile)) s' /\
    files s' = files s /\ stdout s' = stdout s /\ shown s' = shown s.
Proof.
  intros Hw. unfold printout, bind, name_only, ret, plt_xlabel, plt_ylabel,
    plt_title, gca_get_xlim, gca_set_xlim, plt_xlim, plt_draw, plt_savefig,
    print, plt_show, plt_close, modify, gets, with_fig.
  cbn [fig rc files writable stdout shown]. rewrite Hw.
  eexists. split; [reflexivity|]. repeat split.
Qed.



(** C10: the statement on line 48 only names [plt.tight_layout]; it leaves
    the session as it is, whereas calling the routine would mark the figure
    as laid out tightly.  The figure [printout] saves therefore has the
    layout state the figure had on entry, and its x-limits are the limits
    read before the line at y = 0 was drawn: drawing the line may rescale
    the axis, and the limits are set back before saving. *)
Theorem printout_keeps_layout_and_xlim :
  forall (L : Library) (outFile : string)
         (xlabel ylabel title outDir : option string) (s : Session),
    writable s (os_path_join (default "."%string outDir) outFile) = true ->
    name_only plt_tight_layout s = Ok tt s /\
    fig_tight (fig (final (plt_tight_layout s))) = true /\
    exists (s' : Session) (f : Figure),
      printout outFile xlabel ylabel title outDir s = Ok tt s' /\
      lookup_file (os_path_join (default "."%string outDir) outFile) (files s')
        = Some (f, 200) /\
      fig_tight f = fig_tight (fig s) /\
      fig_xlim f = fig_xlim (fig s).
Proof.
  intros L outFile xlabel ylabel title outDir s Hw.
  split; [reflexivity|]. split; [reflexivity|].
  eexists. eexists. split; [apply printout_writable; exact Hw|].
  cbn [files]. split; [apply lookup_file_head|].
  split; reflexivity.
Qed.

Lemma printout_keeps_layout_and_xlim_witness :
  exists (s' : Session) (f : Figure),
    printout (L := Sample.library) "scatterPlot.png" None None None None
             Sample.session = Ok tt s' /\
    lookup_file "./scatterPlot.png" (files s') = Some (f, 200) /\
    fig_tight f = false /\
    fig_xlim f = (of_Z 0, of_Z 500).
Proof.
  destruct (printout_keeps_layout_and_xlim Sample.library "scatterPlot.png"
              None None None None Sample.session eq_refl)
    as (_ & _ & s' & f & H1 & H2 & H3 & H4).
  exists s', f. repeat split; assumption.
Defined.

(** In the sample instance drawing the line does move the x-limits, so
    setting them back is what keeps them. *)
Example ex_hlines_rescales :
  fig_xlim (add_artist (L := Sample.library)
              (HLines (of_Z 0) (of_Z 0) (of_Z 500) "--" "#999999")
              (fig Sample.session))
  = (of_Z (-25), of_Z 525).
Proof.
  cbn. unfold Sample.widen. cbn [fst snd].
  f_equal; apply Qc_is_canon; reflexivity.
Qed.

(* ================================================================== *)
(** ** The styling module is missing *)
(* ================================================================== *)

Section MissingStyle.
Context {L : Library}.

(** The gallery catches the failed import and binds the fallbacks. *)
Lemma import_style_absent (w : World) :
  modules w "utilities.SAP_mystyle" = None ->
  SAP_show_plots.import_style w = Ok fallback_style w.
Proof.
  intros Hm. unfold import_style, try_except_ImportError, import_from.
  now rewrite Hm.
Qed.

(** The filter demo does not: its import raises and nothing else runs. *)
Lemma filter_demo_import_raises (w : World) :
  modules w "utilities.my_style" = None ->
  F5_30_filter_images.main w = Raise (ImportError "utilities.my_style") w.
Proof.
  intros Hm. unfold F5_30_filter_images.main, bind, import_from.
  now rewrite Hm.
Qed.

Lemma safe_ret {A} (a : A) : safe (ret a).
Proof. intros s Hs. now exists a, s. Qed.

Lemma safe_bind {A B} (m : M Session A) (k : A -> M Session B) :
  safe m -> (forall a, safe (k a)) -> safe (bind m k).
Proof.
  intros Hm Hk s Hs. destruct (Hm s Hs) as (a & s1 & E1 & H1).
  destruct (Hk a s1 H1) as (b & s2 & E2 & H2).
  exists b, s2. unfold bind. now rewrite E1.
Qed.

Lemma safe_modify (f : Session -> Session) :
  (forall s, writable (f s) = writable s) -> safe (modify f).
Proof.
  intros Hf s Hs. exists tt, (f s). split; [reflexivity|].
  intros p. rewrite Hf. apply Hs.
Qed.

Lemma safe_printout (outFile : string) (xlabel ylabel title outDir : option string) :
  safe (printout outFile xlabel ylabel title outDir).
Proof.
  intros s Hs. eexists. eexists.
  split; [apply printout_writable, Hs | exact Hs].
Qed.

Lemma wsafe_plt {A} (m : M Session A) : safe m -> wsafe (plt m).
Proof.
  intros Hm w Hw. destruct (Hm _ Hw) as (a & s' & E & H').
  exists a, (mkWorld (rng w) (drawn w) (modules w) s').
  unfold plt. rewrite E. now repeat split.
Qed.

Lemma wsafe_bind {A B} (m : M World A) (k : A -> M World B) :
  wsafe m -> (forall a, wsafe (k a)) -> wsafe (bind m k).
Proof.
  intros Hm Hk w Hw. destruct (Hm w Hw) as (a & w1 & E1 & H1 & M1).
  destruct (Hk a w1 H1) as (b & w2 & E2 & H2 & M2).
  exists b, w2. unfold bind. rewrite E1. repeat split; try assumption.
  congruence.
Qed.

Lemma wsafe_seed (n : Z) : wsafe (np_random_seed n).
Proof. intros w Hw. eexists. eexists. now repeat split. Qed.

Lemma wsafe_randn (n : nat) : wsafe (np_random_randn n).
Proof.
  intros w Hw. unfold np_random_randn.
  destruct (draws mt_normal n (rng w)) as [x s].
  eexists. eexists. now repeat split.
Qed.

Lemma wsafe_rand (h c : nat) : wsafe (np_random_rand h c).
Proof.
  intros w Hw. unfold np_random_rand.
  destruct (draw_rows mt_uniform h c (rng w)) as [x s].
  eexists. eexists. now repeat split.
Qed.

Ltac safe_session :=
  repeat first
    [ apply safe_printout
    | apply safe_ret
    | apply safe_bind; [|intros ?]
    | apply safe_modify; intros ?; reflexivity ].

Ltac safe_world Hst :=
  repeat first
    [ apply wsafe_seed
    | apply wsafe_randn
    | apply wsafe_rand
    | apply wsafe_bind; [|intros ?]
    | apply wsafe_plt;
      first [ apply (proj1 Hst) | apply (proj2 Hst) | solve [safe_session] ] ].

Lemma safe_fallback_style : safe_style fallback_style.
Proof. split; intros ?; simpl; safe_session. Qed.

Lemma wsafe_simplePlots (st : Style) : safe_style st -> wsafe (simplePlots st).
Proof. intros Hst. unfold simplePlots. cbv zeta. safe_world Hst. Qed.

Lemma wsafe_show3D (st : Style) : safe_style st -> wsafe (show3D st).
Proof. intros Hst. unfold show3D. safe_world Hst. Qed.

(** Without the styling module, and with its files writable, the gallery
    runs both demos to completion on the fallbacks. *)
Lemma gallery_completes_without_style (w : World) :
  modules w "utilities.SAP_mystyle" = None ->
  all_writable (sess w) ->
  exists w', SAP_show_plots.main w = Ok tt w' /\
             SAP_show_plots.main w =
             bind (simplePlots fallback_style)
                  (fun _ => show3D fallback_style) w.
Proof.
  intros Hm Hw.
  assert (E : SAP_show_plots.main w =
              bind (simplePlots fallback_style)
                   (fun _ => show3D fallback_style) w).
  { unfold SAP_show_plots.main. unfold bind at 1.
    now rewrite (import_style_absent w Hm). }
  rewrite E.
  destruct (wsafe_bind _ _ (wsafe_simplePlots _ safe_fallback_style)
              (fun _ => wsafe_show3D _ safe_fallback_style) w Hw)
    as ([] & w' & E' & _).
  exists w'. now rewrite E'.
Qed.

End MissingStyle.

(** C1 (the case in which the code departs from it): in a process where no
    styling module can be imported, the image-filter demo stops at its
    import with [ImportError]; it draws, shows and saves nothing. *)
Theorem filter_demo_fails_without_style_module :
  F5_30_filter_images.main (Sample.world_without_style 1234)
  = Raise (ImportError "utilities.my_style") (Sample.world_without_style 1234).
Proof. apply filter_demo_import_raises. reflexivity. Qed.

Example ex_gallery_runs_without_style_module :
  is_ok (SAP_show_plots.main (Sample.world_without_style 1234)) = true.
Proof. vm_compute. reflexivity. Qed.

(* ================================================================== *)
(** ** Reproducibility of the seeded samples *)
(* ================================================================== *)

Section Reproducible.
Context {L : Library}.

Lemma draws_length (step : rng_state -> Qc * rng_state) (n : nat) (s : rng_state) :
  length (fst (draws step n s)) = n.
Proof.
  revert s. induction n as [|n IH]; intros s; simpl; [reflexivity|].
  destruct (step s) as [v s1]. specialize (IH s1).
  destruct (draws step n s1) as [vs s2]. simpl in *. now rewrite IH.
Qed.

Lemma draw_rows_rect (step : rng_state -> Qc * rng_state) (h c : nat) (s : rng_state) :
  rect h c (fst (draw_rows step h c s)).
Proof.
  revert s. induction h as [|h IH]; intros s; simpl.
  - split; [reflexivity | constructor].
  - pose proof (draws_length step c s) as Hl.
    destruct (draws step c s) as [r s1]. specialize (IH s1).
    destruct (draw_rows step h c s1) as [rs s2]. simpl in *.
    destruct IH as [IH1 IH2]. split; [simpl; now rewrite IH1|].
    constructor; assumption.
Qed.

(** Stepping through a run: plotting leaves the generator and its log
    alone, whether it completes or raises. *)
Lemma bind_plt {A B} (m : M Session A) (k : A -> M World B)
  (P : result World B -> Prop) g d mo s :
  (forall e s', P (Raise e (mkWorld g d mo s'))) ->
  (forall a s', P (k a (mkWorld g d mo s'))) ->
  P (bind (plt m) k (mkWorld g d mo s)).
Proof.
  intros Hr Ho. unfold bind, plt. cbn [sess rng drawn modules].
  destruct (m s); auto.
Qed.

Lemma last_plt {A} (m : M Session A) (P : result World A -> Prop) g d mo s :
  (forall e s', P (Raise e (mkWorld g d mo s'))) ->
  (forall a s', P (Ok a (mkWorld g d mo s'))) ->
  P (plt m (mkWorld g d mo s)).
Proof.
  intros Hr Ho. unfold plt. cbn [sess rng drawn modules].
  destruct (m s); auto.
Qed.

Lemma bind_seed {B} (n : Z) (k : unit -> M World B) g d mo s :
  bind (np_random_seed n) k (mkWorld g d mo s) = k tt (mkWorld (mt_seed n) d mo s).
Proof. reflexivity. Qed.

Lemma bind_randn {B} (n : nat) (k : list Qc -> M World B) g d mo s :
  bind (np_random_randn n) k (mkWorld g d mo s) =
  k (fst (draws mt_normal n g))
    (mkWorld (snd (draws mt_normal n g))
             (d ++ [Sample1 (fst (draws mt_normal n g))]) mo s).
Proof.
  unfold bind, np_random_randn. cbn [sess rng drawn modules].
  now destruct (draws mt_normal n g).
Qed.

Lemma bind_rand {B} (h c : nat) (k : ndarray -> M World B) g d mo s :
  bind (np_random_rand h c) k (mkWorld g d mo s) =
  k (fst (draw_rows mt_uniform h c g))
    (mkWorld (snd (draw_rows mt_uniform h c g))
             (d ++ [Sample2 (fst (draw_rows mt_uniform h c g))]) mo s).
Proof.
  unfold bind, np_random_rand. cbn [sess rng drawn modules].
  now destruct (draw_rows mt_uniform h c g).
Qed.

Lemma skipn_length_app {A} (l l' : list A) : skipn (length l) (l ++ l') = l'.
Proof. induction l as [|a l IH]; simpl; auto. Qed.

Ltac raised :=
  unfold follows; cbn [final is_ok drawn]; split;
  [ first [ exists 0%nat; rewrite <- ?app_assoc; cbn [firstn app];
            rewrite ?app_nil_r; reflexivity
          | exists 1%nat; rewrite <- ?app_assoc; reflexivity
          | exists 2%nat; rewrite <- ?app_assoc; reflexivity
          | exists 3%nat; rewrite <- ?app_assoc; reflexivity ]
  | intros H; discriminate H ].

Ltac run :=
  repeat first
    [ rewrite bind_seed
    | rewrite bind_randn
    | rewrite bind_rand
    | apply bind_plt; [intros ? ?; raised | intros ? ?; cbv beta zeta] ].

(** Whatever the session, the styling module and the state of the
    generator at the start, the arrays a run of the gallery draws are an
    initial segment of [gallery_samples], and all of it when the run
    completes. *)
Lemma simplePlots_follows (st : Style) (w : World) :
  follows (drawn w) (simplePlots st w).
Proof.
  destruct w as [g d mo s]. cbn [drawn]. unfold simplePlots.
  run.
  apply last_plt; intros ? ?; [raised|].
  unfold follows. cbn [final is_ok drawn]. split.
  - exists 3%nat. rewrite <- !app_assoc. reflexivity.
  - intros _. rewrite <- !app_assoc. reflexivity.
Qed.

Lemma new_samples_completed (st : Style) (w : World) :
  is_ok (simplePlots st w) = true ->
  new_samples w (simplePlots st w) = gallery_samples.
Proof.
  intros Hok. unfold new_samples.
  rewrite (proj2 (simplePlots_follows st w) Hok).
  apply skipn_length_app.
Qed.

Lemma gallery_samples_shapes :
  exists x df df2,
    gallery_samples = [Sample1 x; Sample2 df; Sample2 df2] /\
    length x = 500%nat /\ rect 10 4 df /\ rect 50 3 df2.
Proof.
  unfold gallery_samples. cbv zeta.
  eexists. eexists. eexists. split; [reflexivity|].
  split; [apply draws_length|]. split; apply draw_rows_rect.
Qed.

End Reproducible.

(** C7: two completed runs of the gallery draw the same arrays, whatever
    state the generator was in when each run started and whatever else
    differs between the two processes: the seed is set to 1234 before the
    500 normal draws and again before the two tables, so the arrays are
    those fixed by the generator and the seed alone. *)
Theorem seeded_samples_identical_across_runs :
  forall (L : Library) (style1 style2 : Style) (w1 w2 : World),
    is_ok (simplePlots style1 w1) = true ->
    is_ok (simplePlots style2 w2) = true ->
    new_samples w1 (simplePlots style1 w1) =
    new_samples w2 (simplePlots style2 w2) /\
    new_samples w1 (simplePlots style1 w1) = gallery_samples.
Proof.
  intros L style1 style2 w1 w2 H1 H2.
  rewrite (new_samples_completed style1 w1 H1).
  rewrite (new_samples_completed style2 w2 H2).
  split; reflexivity.
Qed.

Lemma seeded_samples_identical_across_runs_witness :
  new_samples (Sample.world_without_style 7)
    (simplePlots fallback_style (Sample.world_without_style 7)) =
  new_samples (Sample.world_without_style 99)
    (simplePlots fallback_style (Sample.world_without_style 99)).
Proof.
  apply (seeded_samples_identical_across_runs Sample.library
           fallback_style fallback_style
           (Sample.world_without_style 7) (Sample.world_without_style 99)).
  - vm_compute. reflexivity.
  - vm_compute. reflexivity.
Defined.

(* ================================================================== *)
(** ** The image-filter demo: shapes, borders, ranges, flat directions *)
(* ================================================================== *)

Import Behaviour.

Lemma sum_range_3 (f : nat -> Qc) :
  sum_range 3 f = (f 0%nat + f 1%nat + f 2%nat)%Qc.
Proof. simpl. ring. Qed.

Lemma sum_range_sub (n : nat) (f g : nat -> Qc) :
  sum_range n (fun a => (f a - g a)%Qc) = (sum_range n f - sum_range n g)%Qc.
Proof.
  induction n as [|n IH]; simpl.
  - ring.
  - rewrite IH. ring.
Qed.

Lemma of_Z_opp (x : Z) : of_Z (- x) = (- of_Z x)%Qc.
Proof.
  unfold of_Z, Qcopp. apply Q2Qc_eq_iff.
  change (this (Q2Qc (inject_Z x))) with (Qred (inject_Z x)).
  now rewrite Qred_correct, inject_Z_opp.
Qed.

Lemma of_Z_sub (x y : Z) : of_Z (x - y) = (of_Z x - of_Z y)%Qc.
Proof.
  unfold Z.sub, Qcminus. now rewrite of_Z_add, of_Z_opp.
Qed.

Lemma of_Z_le (x y : Z) : x <= y -> (of_Z x <= of_Z y)%Qc.
Proof.
  intros H. unfold Qcle, of_Z.
  change (this (Q2Qc (inject_Z x))) with (Qred (inject_Z x)).
  change (this (Q2Qc (inject_Z y))) with (Qred (inject_Z y)).
  rewrite !Qred_correct. now rewrite <- Zle_Qle.
Qed.

Lemma sumZ_ext (n : nat) (f g : nat -> Z) :
  (forall i, (i < n)%nat -> f i = g i) -> sumZ n f = sumZ n g.
Proof.
  induction n as [|n IH]; intros H; simpl; [reflexivity|].
  rewrite IH, H; auto.
Qed.

Lemma sumZ_bounds (n : nat) (f : nat -> Z) (lo hi : Z) :
  (forall i, (i < n)%nat -> lo <= f i <= hi) ->
  Z.of_nat n * lo <= sumZ n f <= Z.of_nat n * hi.
Proof.
  induction n as [|n IH]; intros H; simpl sumZ; [lia|].
  assert (Hn : lo <= f n <= hi) by (apply H; lia).
  assert (IH' : Z.of_nat n * lo <= sumZ n f <= Z.of_nat n * hi)
    by (apply IH; intros; apply H; lia).
  lia.
Qed.

Lemma pixel_uint8 (img : list (list Z)) (i j : nat) :
  uint8_image img -> 0 <= pixel img i j <= 255.
Proof.
  intros H. unfold pixel.
  destruct (nth_in_or_default i img []) as [Hi | ->].
  - unfold uint8_image in H. rewrite Forall_forall in H. specialize (H _ Hi).
    destruct (nth_in_or_default j (nth i img []) 0) as [Hj | ->]; [|lia].
    rewrite Forall_forall in H. now apply H.
  - destruct j; simpl; lia.
Qed.

Lemma get_horizontal_0 (b : nat) :
  (b < 11)%nat -> get filter_horizontal 0 b = Q2Qc 1.
Proof. intros Hb. do 11 (destruct b as [|b]; [reflexivity|]). lia. Qed.

Lemma get_horizontal_1 (b : nat) :
  (b < 11)%nat -> get filter_horizontal 1 b = Q2Qc 0.
Proof. intros Hb. do 11 (destruct b as [|b]; [reflexivity|]). lia. Qed.

Lemma get_horizontal_2 (b : nat) :
  (b < 11)%nat -> get filter_horizontal 2 b = (- Q2Qc 1)%Qc.
Proof.
  intros Hb.
  do 11 (destruct b as [|b]; [apply Qc_is_canon; reflexivity|]). lia.
Qed.

Lemma rect_filter_horizontal : rect 3 11 filter_horizontal.
Proof. split; [reflexivity | repeat constructor]. Qed.

(** The horizontal-edge response at any pixel: the window of the row above
    minus the window of the row below, both read through the mirror. *)
Lemma horizontal_at (h w : nat) (img : ndarray) (i j : nat) :
  rect h w img -> (i < h)%nat -> (j < w)%nat ->
  get (correlate img filter_horizontal) i j =
  (sum_range 11 (fun b => get img (reflect h (Z.of_nat i - 1))
                              (reflect w (Z.of_nat j + Z.of_nat b - 5)))
   - sum_range 11 (fun b => get img (reflect h (Z.of_nat i + 1))
                                (reflect w (Z.of_nat j + Z.of_nat b - 5))))%Qc.
Proof.
  intros Hr Hi Hj. rewrite (get_correlate h w) by assumption.
  unfold correlate_at.
  rewrite (rect_cols h w img Hr) by lia.
  replace (rows img) with h by (symmetry; apply Hr).
  change (rows filter_horizontal) with 3%nat.
  change (cols filter_horizontal) with 11%nat.
  change (Z.of_nat 3 / 2) with 1. change (Z.of_nat 11 / 2) with 5.
  rewrite sum_range_3.
  rewrite (sum_range_ext 11 _
    (fun b => get img (reflect h (Z.of_nat i - 1))
                  (reflect w (Z.of_nat j + Z.of_nat b - 5)))).
  2:{ intros b Hb. rewrite get_horizontal_0 by assumption.
      replace (Z.of_nat i + Z.of_nat 0 - 1) with (Z.of_nat i - 1) by lia. ring. }
  rewrite (sum_range_ext 11
    (fun b => (get filter_horizontal 1 b * _)%Qc) (fun _ => Q2Qc 0)).
  2:{ intros b Hb. rewrite get_horizontal_1 by assumption. ring. }
  rewrite sum_range_zero.
  rewrite (sum_range_ext 11
    (fun b => (get filter_horizontal 2 b * _)%Qc)
    (fun b => (Q2Qc 0 - get img (reflect h (Z.of_nat i + 1))
                  (reflect w (Z.of_nat j + Z.of_nat b - 5)))%Qc)).
  2:{ intros b Hb. rewrite get_horizontal_2 by assumption.
      replace (Z.of_nat i + Z.of_nat 2 - 1) with (Z.of_nat i + 1) by lia. ring. }
  rewrite sum_range_sub, sum_range_zero. ring.
Qed.

Lemma get_vertical (a b : nat) :
  (a < 11)%nat -> (b < 3)%nat ->
  get filter_vertical a b = get filter_horizontal b a.
Proof.
  intros Ha Hb. unfold filter_vertical.
  apply (get_T 3 11); auto using rect_filter_horizontal.
Qed.

Lemma rect_filter_vertical : rect 11 3 filter_vertical.
Proof.
  unfold filter_vertical. apply T_shape; try lia. apply rect_filter_horizontal.
Qed.

(** The vertical-edge response at any pixel: the window of the column to
    the left minus the window of the column to the right. *)
Lemma vertical_at (h w : nat) (img : ndarray) (i j : nat) :
  rect h w img -> (i < h)%nat -> (j < w)%nat ->
  get (correlate img filter_vertical) i j =
  (sum_range 11 (fun a => get img (reflect h (Z.of_nat i + Z.of_nat a - 5))
                              (reflect w (Z.of_nat j - 1)))
   - sum_range 11 (fun a => get img (reflect h (Z.of_nat i + Z.of_nat a - 5))
                                (reflect w (Z.of_nat j + 1))))%Qc.
Proof.
  intros Hr Hi Hj. rewrite (get_correlate h w) by assumption.
  unfold correlate_at.
  rewrite (rect_cols h w img Hr) by lia.
  replace (rows img) with h by (symmetry; apply Hr).
  replace (rows filter_vertical) with 11%nat
    by (symmetry; apply rect_filter_vertical).
  rewrite (rect_cols 11 3 _ rect_filter_vertical) by lia.
  change (Z.of_nat 3 / 2) with 1. change (Z.of_nat 11 / 2) with 5.
  rewrite <- sum_range_sub.
  apply sum_range_ext. intros a Ha.
  rewrite sum_range_3.
  rewrite !get_vertical by (assumption || lia).
  rewrite get_horizontal_0, get_horizontal_1, get_horizontal_2 by assumption.
  replace (Z.of_nat j + Z.of_nat 0 - 1) with (Z.of_nat j - 1) by lia.
  replace (Z.of_nat j + Z.of_nat 2 - 1) with (Z.of_nat j + 1) by lia.
  ring.
Qed.

Lemma rect_correlate_any (h w : nat) (img k : ndarray) :
  rect h w img -> rect h w (correlate img k).
Proof.
  intros Hr. destruct h as [|h'].
  - destruct Hr as [Hl _]. apply length_zero_iff_nil in Hl. subst img.
    split; [reflexivity | constructor].
  - apply rect_correlate; [assumption | lia].
Qed.


Lemma array_ext (h w : nat) (a b : ndarray) :
  rect h w a -> rect h w b ->
  (forall i j, (i < h)%nat -> (j < w)%nat -> get a i j = get b i j) ->
  a = b.
Proof.
  intros Ha Hb H.
  apply (nth_ext a b [] []); [destruct Ha, Hb; congruence|].
  intros i Hi. replace (length a) with h in Hi by (symmetry; apply Ha).
  apply (nth_ext _ _ (Q2Qc 0) (Q2Qc 0)).
  - now rewrite (rect_nth_length h w a i Ha Hi), (rect_nth_length h w b i Hb Hi).
  - intros j Hj. rewrite (rect_nth_length h w a i Ha Hi) in Hj.
    now apply H.
Qed.

Lemma nowhere_gt_scalar_full (h w : nat) (c t : Qc) :
  gtb c t = false -> nowhere (gt_scalar (full h w c) t).
Proof.
  intros Hc i j. unfold gt_scalar, full.
  destruct (nth_in_or_default i
              (map (map (fun v => gtb v t))
                   (tabulate h (fun _ => tabulate w (fun _ => c)))) [])
    as [Hi | ->]; [|now destruct j].
  apply in_map_iff in Hi. destruct Hi as (r & Hr & Hin). rewrite <- Hr.
  unfold tabulate in Hin. apply in_map_iff in Hin. destruct Hin as (x & <- & _).
  destruct (nth_in_or_default j (map (fun v => gtb v t) (map (fun _ => c) (seq 0 w))) false)
    as [Hj | ->]; [|reflexivity].
  apply in_map_iff in Hj. destruct Hj as (v & <- & Hv).
  apply in_map_iff in Hv. destruct Hv as (y & <- & _). exact Hc.
Qed.








Lemma uint8_img_2x3 : uint8_image [[10; 200; 30]; [255; 0; 77]].
Proof. repeat constructor; lia. Qed.


(** The edge responses on a [uint8] source image, as integers. *)
Lemma horizontal_at_Z (h w : nat) (img : list (list Z)) (i j : nat) :
  rect h w img -> (i < h)%nat -> (j < w)%nat ->
  get (filtered_n (astype_float img) 1) i j =
  of_Z (sumZ 11 (fun b => pixel img (reflect h (Z.of_nat i - 1))
                                (reflect w (Z.of_nat j + Z.of_nat b - 5)))
        - sumZ 11 (fun b => pixel img (reflect h (Z.of_nat i + 1))
                                  (reflect w (Z.of_nat j + Z.of_nat b - 5)))).
Proof.
  intros Hr Hi Hj.
  pose proof (rect_astype_float h w img Hr) as Hrf.
  unfold filtered_n, filtered. simpl nth.
  rewrite (horizontal_at h w) by assumption.
  rewrite of_Z_sub, <- !sum_range_of_Z.
  f_equal; apply sum_range_ext; intros b Hb;
    apply (get_astype_float h w); (assumption || apply reflect_lt; lia).
Qed.

Lemma vertical_at_Z (h w : nat) (img : list (list Z)) (i j : nat) :
  rect h w img -> (i < h)%nat -> (j < w)%nat ->
  get (filtered_n (astype_float img) 2) i j =
  of_Z (sumZ 11 (fun a => pixel img (reflect h (Z.of_nat i + Z.of_nat a - 5))
                                (reflect w (Z.of_nat j - 1)))
        - sumZ 11 (fun a => pixel img (reflect h (Z.of_nat i + Z.of_nat a - 5))
                                  (reflect w (Z.of_nat j + 1)))).
Proof.
  intros Hr Hi Hj.
  pose proof (rect_astype_float h w img Hr) as Hrf.
  unfold filtered_n, filtered. simpl nth.
  rewrite (vertical_at h w) by assumption.
  rewrite of_Z_sub, <- !sum_range_of_Z.
  f_equal; apply sum_range_ext; intros a Ha;
    apply (get_astype_float h w); (assumption || apply reflect_lt; lia).
Qed.

(** X4: at a pixel whose 3 x 11 window lies inside the image, the
    horizontal-edge output is the sum of the 11 pixels of the row above
    minus the sum of the 11 pixels of the row below. *)
Theorem horizontal_edge_is_row_difference :
  forall (h w : nat) (img : list (list Z)) (i j : nat),
    rect h w img ->
    (1 <= i)%nat -> (i + 1 < h)%nat -> (5 <= j)%nat -> (j + 5 < w)%nat ->
    get (filtered_n (astype_float img) 1) i j =
    of_Z (row_window img (i - 1) j - row_window img (i + 1) j).
Proof.
  intros h w img i j Hr Hi1 Hi2 Hj1 Hj2.
  rewrite (horizontal_at_Z h w) by (assumption || lia).
  unfold row_window. f_equal. f_equal; apply sumZ_ext; intros b Hb;
    rewrite !reflect_inside by lia; f_equal; lia.
Qed.

Lemma horizontal_edge_is_row_difference_witness :
  get (filtered_n (astype_float Sample.img_11x11) 1) 5 5 =
  of_Z (row_window Sample.img_11x11 4 5 - row_window Sample.img_11x11 6 5).
Proof.
  apply (horizontal_edge_is_row_difference 11 11 Sample.img_11x11 5 5); try lia.
  split; [reflexivity | repeat constructor].
Defined.

(** X5: at a pixel whose 11 x 3 window lies inside the image, the
    vertical-edge output is the sum of the 11 pixels of the column to the
    left minus the sum of the 11 pixels of the column to the right. *)
Theorem vertical_edge_is_column_difference :
  forall (h w : nat) (img : list (list Z)) (i j : nat),
    rect h w img ->
    (5 <= i)%nat -> (i + 5 < h)%nat -> (1 <= j)%nat -> (j + 1 < w)%nat ->
    get (filtered_n (astype_float img) 2) i j =
    of_Z (col_window img i (j - 1) - col_window img i (j + 1)).
Proof.
  intros h w img i j Hr Hi1 Hi2 Hj1 Hj2.
  rewrite (vertical_at_Z h w) by (assumption || lia).
  unfold col_window. f_equal. f_equal; apply sumZ_ext; intros a Ha;
    rewrite !reflect_inside by lia; f_equal; lia.
Qed.

Lemma vertical_edge_is_column_difference_witness :
  get (filtered_n (astype_float Sample.img_11x11) 2) 5 5 =
  of_Z (col_window Sample.img_11x11 5 4 - col_window Sample.img_11x11 5 6).
Proof.
  apply (vertical_edge_is_column_difference 11 11 Sample.img_11x11 5 5); try lia.
  split; [reflexivity | repeat constructor].
Defined.

Example ex_edges_of_ramp :
  row_window Sample.img_11x11 4 5 - row_window Sample.img_11x11 6 5 = -242 /\
  col_window Sample.img_11x11 5 4 - col_window Sample.img_11x11 5 6 = -22.
Proof. split; reflexivity. Qed.

(** X6: on a [uint8] image both edge outputs lie between -2805 and 2805
    (11 pixels of at most 255 on either side) at every pixel. *)
Theorem edge_filters_are_bounded :
  forall (h w : nat) (img : list (list Z)) (n i j : nat),
    rect h w img -> uint8_image img ->
    n = 1%nat \/ n = 2%nat -> (i < h)%nat -> (j < w)%nat ->
    (of_Z (-2805) <= get (filtered_n (astype_float img) n) i j)%Qc /\
    (get (filtered_n (astype_float img) n) i j <= of_Z 2805)%Qc.
Proof.
  intros h w img n i j Hr Hu Hn Hi Hj.
  assert (B : forall f : nat -> nat * nat,
             0 <= sumZ 11 (fun b => pixel img (fst (f b)) (snd (f b))) <= 2805).
  { intros f.
    pose proof (sumZ_bounds 11 (fun b => pixel img (fst (f b)) (snd (f b))) 0 255
                  (fun b _ => pixel_uint8 img _ _ Hu)) as H.
    change (Z.of_nat 11) with 11 in H. lia. }
  destruct Hn as [-> | ->].
  - rewrite (horizontal_at_Z h w) by assumption.
    pose proof (B (fun b => (reflect h (Z.of_nat i - 1),
                             reflect w (Z.of_nat j + Z.of_nat b - 5)))) as B1.
    pose proof (B (fun b => (reflect h (Z.of_nat i + 1),
                             reflect w (Z.of_nat j + Z.of_nat b - 5)))) as B2.
    cbn [fst snd] in B1, B2. split; apply of_Z_le; lia.
  - rewrite (vertical_at_Z h w) by assumption.
    pose proof (B (fun a => (reflect h (Z.of_nat i + Z.of_nat a - 5),
                             reflect w (Z.of_nat j - 1)))) as B1.
    pose proof (B (fun a => (reflect h (Z.of_nat i + Z.of_nat a - 5),
                             reflect w (Z.of_nat j + 1)))) as B2.
    cbn [fst snd] in B1, B2. split; apply of_Z_le; lia.
Qed.

Lemma edge_filters_are_bounded_witness :
  (of_Z (-2805) <= get (filtered_n Sample.img_2x3 1) 0 1)%Qc /\
  (get (filtered_n Sample.img_2x3 1) 0 1 <= of_Z 2805)%Qc.
Proof.
  apply (edge_filters_are_bounded 2 3 [[10; 200; 30]; [255; 0; 77]] 1 0 1).
  - split; [reflexivity | repeat constructor].
  - repeat constructor; lia.
  - left; reflexivity.
  - lia.
  - lia.
Defined.

(** X7: the horizontal-edge filter does not respond to an image whose rows
    are all alike: its output is zero everywhere and its mask is [False]
    everywhere. *)
Theorem horizontal_edge_ignores_equal_rows :
  forall (h w : nat) (img : ndarray),
    rect h w img ->
    (forall i i' j, (i < h)%nat -> (i' < h)%nat -> (j < w)%nat ->
                    get img i j = get img i' j) ->
    filtered_n img 1 = full h w (of_Z 0) /\ nowhere (mask img 1).
Proof.
  intros h w img Hr Heq.
  assert (E : filtered_n img 1 = full h w (of_Z 0)).
  { unfold filtered_n, filtered. simpl nth.
    apply (array_ext h w); [now apply rect_correlate_any | apply rect_tabulate |].
    intros i j Hi Hj. rewrite (horizontal_at h w) by assumption.
    unfold full. rewrite get_tabulate by assumption.
    rewrite (sum_range_ext 11 _
      (fun b => get img (reflect h (Z.of_nat i + 1))
                    (reflect w (Z.of_nat j + Z.of_nat b - 5)))).
    - change (of_Z 0) with (Q2Qc 0). ring.
    - intros b Hb. apply Heq; apply reflect_lt; lia. }
  split; [exact E|].
  unfold mask. rewrite E. now apply nowhere_gt_scalar_full.
Qed.

(** X8: the vertical-edge filter does not respond to an image whose
    columns are all alike. *)
Theorem vertical_edge_ignores_equal_columns :
  forall (h w : nat) (img : ndarray),
    rect h w img ->
    (forall i j j', (i < h)%nat -> (j < w)%nat -> (j' < w)%nat ->
                    get img i j = get img i j') ->
    filtered_n img 2 = full h w (of_Z 0) /\ nowhere (mask img 2).
Proof.
  intros h w img Hr Heq.
  assert (E : filtered_n img 2 = full h w (of_Z 0)).
  { unfold filtered_n, filtered. simpl nth.
    apply (array_ext h w); [now apply rect_correlate_any | apply rect_tabulate |].
    intros i j Hi Hj. rewrite (vertical_at h w) by assumption.
    unfold full. rewrite get_tabulate by assumption.
    rewrite (sum_range_ext 11 _
      (fun a => get img (reflect h (Z.of_nat i + Z.of_nat a - 5))
                    (reflect w (Z.of_nat j + 1)))).
    - change (of_Z 0) with (Q2Qc 0). ring.
    - intros a Ha. apply Heq; apply reflect_lt; lia. }
  split; [exact E|].
  unfold mask. rewrite E. now apply nowhere_gt_scalar_full.
Qed.

Lemma horizontal_edge_ignores_equal_rows_witness :
  filtered_n equal_rows_2x3 1 = full 2 3 (of_Z 0) /\ nowhere (mask equal_rows_2x3 1).
Proof.
  apply (horizontal_edge_ignores_equal_rows 2 3 equal_rows_2x3).
  - split; [reflexivity | repeat constructor].
  - intros i i' j Hi Hi' Hj.
    destruct i as [|[|i]]; destruct i' as [|[|i']]; try lia; reflexivity.
Defined.

Lemma vertical_edge_ignores_equal_columns_witness :
  filtered_n equal_columns_2x3 2 = full 2 3 (of_Z 0) /\
  nowhere (mask equal_columns_2x3 2).
Proof.
  apply (vertical_edge_ignores_equal_columns 2 3 equal_columns_2x3).
  - split; [reflexivity | repeat constructor].
  - intros i j j' Hi Hj Hj'.
    destruct i as [|[|i]]; try lia;
      destruct j as [|[|[|j]]]; try lia;
      destruct j' as [|[|[|j']]]; try lia; reflexivity.
Defined.

(* ================================================================== *)
(** ** More on [printout] *)
(* ================================================================== *)

Lemma printout_unwritable {L : Library} (outFile : string)
  (xlabel ylabel title outDir : option string) (s : Session) :
  writable s (os_path_join (default "."%string outDir) outFile) = false ->
  printout outFile xlabel ylabel title outDir s =
  Raise (OSError (os_path_join (default "."%string outDir) outFile))
        (mkSession (printed_figure xlabel ylabel title (fig s)) (rc s)
                   (files s) (writable s) (stdout s) (shown s)).
Proof.
  intros Hw. unfold printout, bind, name_only, ret, plt_xlabel, plt_ylabel,
    plt_title, gca_get_xlim, gca_set_xlim, plt_xlim, plt_draw, plt_savefig,
    print, plt_show, plt_close, modify, gets, with_fig.
  cbn [fig rc files writable stdout shown]. now rewrite Hw.
Qed.


(** X9: when the target path cannot be written, [printout] raises the
    error of the file write.  Nothing has been printed, displayed or
    written; the figure stays open, and it already carries the labels, the
    title and the line at y = 0. *)
Theorem printout_unwritable_raises_before_reporting :
  forall (L : Library) (outFile : string)
         (xlabel ylabel title outDir : option string) (s : Session),
    writable s (os_path_join (default "."%string outDir) outFile) = false ->
    exists s' : Session,
      printout outFile xlabel ylabel title outDir s =
      Raise (OSError (os_path_join (default "."%string outDir) outFile)) s' /\
      files s' = files s /\ stdout s' = stdout s /\ shown s' = shown s /\
      fig_title (fig s') = default ""%string title /\
      fig_artists (fig s') =
      fig_artists (fig s) ++
        [HLines (of_Z 0) (fst (fig_xlim (fig s))) (snd (fig_xlim (fig s)))
                "--" "#999999"].
Proof.
  intros L outFile xlabel ylabel title outDir s Hw.
  eexists. split; [apply printout_unwritable; exact Hw|].
  repeat split.
Qed.



(** X12: a file name that starts with a slash makes [printout] save at
    that name and not under the output directory, while the report still
    names the output directory. *)
Theorem printout_absolute_name_leaves_outDir :
  forall (L : Library) (outFile : string)
         (xlabel ylabel title outDir : option string) (s : Session),
    startswith_sep outFile = true ->
    writable s outFile = true ->
    exists (s' : Session) (f : Figure),
      printout outFile xlabel ylabel title outDir s = Ok tt s' /\
      map fst (files s') = outFile :: map fst (files s) /\
      lookup_file outFile (files s') = Some (f, 200) /\
      In ("OutDir: " ++ default "."%string outDir)%string (stdout s').
Proof.
  intros L outFile xlabel ylabel title outDir s Ha Hw.
  assert (E : os_path_join (default "."%string outDir) outFile = outFile)
    by (unfold os_path_join; now rewrite Ha).
  eexists. eexists. split.
  - apply printout_writable. now rewrite E.
  - cbn [files stdout]. rewrite E. split; [reflexivity|].
    split; [apply lookup_file_head|].
    apply in_or_app. right. apply in_or_app. left. left. reflexivity.
Qed.

(** X13: only the x-limits are set back.  The y-limits of the saved figure
    are those matplotlib chose when the line at y = 0 was drawn. *)
Theorem printout_does_not_restore_ylim :
  forall (L : Library) (outFile : string)
         (xlabel ylabel title outDir : option string) (s : Session),
    writable s (os_path_join (default "."%string outDir) outFile) = true ->
    exists (s' : Session) (f : Figure),
      printout outFile xlabel ylabel title outDir s = Ok tt s' /\
      lookup_file (os_path_join (default "."%string outDir) outFile) (files s')
        = Some (f, 200) /\
      fig_ylim f =
      snd (autoscale
             (set_title (default ""%string title)
                (set_ylabel (default ""%string ylabel)
                   (set_xlabel (default ""%string xlabel) (fig s))))
             (HLines (of_Z 0) (fst (fig_xlim (fig s))) (snd (fig_xlim (fig s)))
                     "--" "#999999")).
Proof.
  intros L outFile xlabel ylabel title outDir s Hw.
  eexists. eexists. split; [apply printout_writable; exact Hw|].
  cbn [files]. split; [apply lookup_file_head | reflexivity].
Qed.


Lemma printout_unwritable_raises_before_reporting_witness :
  exists s' : Session,
    printout (L := Sample.library) "scatterPlot.png" None None
             (Some "Scatter"%string) None read_only_session =
    Raise (OSError "./scatterPlot.png") s' /\
    files s' = [] /\ stdout s' = [] /\ shown s' = [] /\
    fig_title (fig s') = "Scatter"%string.
Proof.
  destruct (printout_unwritable_raises_before_reporting Sample.library
              "scatterPlot.png" None None (Some "Scatter"%string) None
              read_only_session eq_refl)
    as (s' & H1 & H2 & H3 & H4 & H5 & _).
  exists s'. repeat split; assumption.
Defined.



Lemma printout_absolute_name_leaves_outDir_witness :
  exists (s' : Session) (f : Figure),
    printout (L := Sample.library) "/tmp/boxplot.png" None None None
             (Some "out"%string) Sample.session = Ok tt s' /\
    map fst (files s') = ["/tmp/boxplot.png"%string] /\
    lookup_file "/tmp/boxplot.png" (files s') = Some (f, 200) /\
    In "OutDir: out"%string (stdout s').
Proof.
  exact (printout_absolute_name_leaves_outDir Sample.library "/tmp/boxplot.png"
           None None None (Some "out"%string) Sample.session eq_refl eq_refl).
Defined.

Lemma printout_does_not_restore_ylim_witness :
  exists (s' : Session) (f : Figure),
    printout (L := Sample.library) "boxplot.png" None None None None
             Sample.session = Ok tt s' /\
    lookup_file "./boxplot.png" (files s') = Some (f, 200) /\
    fig_ylim f = Sample.widen (of_Z 0, of_Z 0).
Proof.
  exact (printout_does_not_restore_ylim Sample.library "boxplot.png"
           None None None None Sample.session eq_refl).
Defined.


(* ================================================================== *)
(** ** More on the gallery *)
(* ================================================================== *)

Section GalleryTrace.
Context {L : Library}.

Ltac trace_done :=
  repeat split; auto;
  rewrite ?app_nil_r, ?length_app; cbn [length]; solve [auto | lia].

Lemma traces_ret {A} (a : A) : traces [] [] 0 (ret a).
Proof.
  intros s Hs. exists a, s. trace_done.
Qed.

Lemma traces_bind {A B} (m : M Session A) (k : A -> M Session B)
  n1 l1 c1 n2 l2 c2 :
  traces n1 l1 c1 m -> (forall a, traces n2 l2 c2 (k a)) ->
  traces (n1 ++ n2) (l1 ++ l2) (c1 + c2) (bind m k).
Proof.
  intros Hm Hk s Hs.
  destruct (Hm s Hs) as (a & s1 & E1 & W1 & F1 & O1 & S1).
  destruct (Hk a s1 W1) as (b & s2 & E2 & W2 & F2 & O2 & S2).
  exists b, s2. unfold bind. rewrite E1. repeat split; try assumption.
  - now rewrite F2, F1, rev_app_distr, app_assoc.
  - now rewrite O2, O1, app_assoc.
  - lia.
Qed.

Lemma traces_with_fig (f : Figure -> Figure) : traces [] [] 0 (modify (with_fig f)).
Proof.
  intros s Hs. eexists. eexists. split; [reflexivity|].
  cbn. trace_done.
Qed.

Lemma traces_with_rc f : traces [] [] 0 (modify (with_rc f)).
Proof.
  intros s Hs. eexists. eexists. split; [reflexivity|].
  cbn. trace_done.
Qed.

Lemma traces_show : traces [] [] 1 plt_show.
Proof.
  intros s Hs. eexists. eexists. split; [reflexivity|].
  cbn. trace_done.
Qed.

Lemma traces_printout (outFile : string) (xlabel ylabel title outDir : option string) :
  traces [os_path_join (default "."%string outDir) outFile]
         [("OutDir: " ++ default "."%string outDir)%string;
          ("Figure saved to " ++ outFile)%string] 1
         (printout outFile xlabel ylabel title outDir).
Proof.
  intros s Hs. eexists. eexists.
  split; [apply printout_writable, Hs|].
  cbn [files stdout shown writable]. trace_done.
Qed.

Lemma wtraces_plt {A} names lines n (m : M Session A) :
  traces names lines n m -> wtraces names lines n (plt m).
Proof.
  intros Hm w Hw. destruct (Hm _ Hw) as (a & s' & E & W & F & O & S).
  exists a, (mkWorld (rng w) (drawn w) (modules w) s').
  unfold plt. rewrite E. now repeat split.
Qed.

Lemma wtraces_bind {A B} (m : M World A) (k : A -> M World B)
  n1 l1 c1 n2 l2 c2 :
  wtraces n1 l1 c1 m -> (forall a, wtraces n2 l2 c2 (k a)) ->
  wtraces (n1 ++ n2) (l1 ++ l2) (c1 + c2) (bind m k).
Proof.
  intros Hm Hk w Hw.
  destruct (Hm w Hw) as (a & w1 & E1 & W1 & F1 & O1 & S1).
  destruct (Hk a w1 W1) as (b & w2 & E2 & W2 & F2 & O2 & S2).
  exists b, w2. unfold bind. rewrite E1. repeat split; try assumption.
  - now rewrite F2, F1, rev_app_distr, app_assoc.
  - now rewrite O2, O1, app_assoc.
  - lia.
Qed.

Lemma wtraces_quiet {A} (m : M World A) :
  (forall w, exists a g d, m w = Ok a (mkWorld g d (modules w) (sess w))) ->
  wtraces [] [] 0 m.
Proof.
  intros H w Hw. destruct (H w) as (a & g & d & E).
  eexists. eexists. split; [exact E|]. cbn. trace_done.
Qed.

Lemma wtraces_seed (n : Z) : wtraces [] [] 0 (np_random_seed n).
Proof. apply wtraces_quiet. intros w. eexists. eexists. eexists. reflexivity. Qed.

Lemma wtraces_randn (n : nat) : wtraces [] [] 0 (np_random_randn n).
Proof.
  apply wtraces_quiet. intros w. unfold np_random_randn.
  destruct (draws mt_normal n (rng w)). eexists. eexists. eexists. reflexivity.
Qed.

Lemma wtraces_rand (h c : nat) : wtraces [] [] 0 (np_random_rand h c).
Proof.
  apply wtraces_quiet. intros w. unfold np_random_rand.
  destruct (draw_rows mt_uniform h c (rng w)).
  eexists. eexists. eexists. reflexivity.
Qed.

Lemma wtraces_eq {A} (m : M World A) n l c n' l' c' :
  wtraces n l c m -> n = n' -> l = l' -> c = c' -> wtraces n' l' c' m.
Proof. intros H -> -> ->. exact H. Qed.

Ltac trace_session :=
  repeat first
    [ eapply traces_printout
    | eapply traces_ret
    | eapply traces_show
    | eapply traces_with_fig
    | eapply traces_with_rc
    | eapply traces_bind; [|intros ?] ].

Ltac trace_world :=
  repeat first
    [ eapply wtraces_seed
    | eapply wtraces_randn
    | eapply wtraces_rand
    | eapply wtraces_bind; [|intros ?]
    | eapply wtraces_plt; solve [trace_session] ].

Lemma simplePlots_trace :
  wtraces gallery_files gallery_report 9 (simplePlots fallback_style).
Proof.
  eapply wtraces_eq.
  - unfold simplePlots. cbv zeta. trace_world.
  - reflexivity.
  - reflexivity.
  - reflexivity.
Qed.

Lemma show3D_trace : wtraces [] [] 1 (show3D fallback_style).
Proof.
  eapply wtraces_eq.
  - unfold show3D. trace_world.
  - reflexivity.
  - reflexivity.
  - reflexivity.
Qed.

End GalleryTrace.

Section GalleryRuns.
Context {L : Library}.

Lemma bind_plt_ok {A B} (m : M Session A) (k : A -> M World B) g d mo s a s' :
  m s = Ok a s' ->
  bind (plt m) k (mkWorld g d mo s) = k a (mkWorld g d mo s').
Proof. intros E. unfold bind, plt. cbn [sess rng drawn modules]. now rewrite E. Qed.

Lemma bind_plt_raise {A B} (m : M Session A) (k : A -> M World B) g d mo s e s' :
  m s = Raise e s' ->
  bind (plt m) k (mkWorld g d mo s) = Raise e (mkWorld g d mo s').
Proof. intros E. unfold bind, plt. cbn [sess rng drawn modules]. now rewrite E. Qed.

Lemma main_on_fallbacks (w : World) :
  modules w "utilities.SAP_mystyle" = None ->
  SAP_show_plots.main w =
  bind (simplePlots fallback_style) (fun _ => show3D fallback_style) w.
Proof.
  intros Hm. unfold SAP_show_plots.main. unfold bind at 1.
  now rewrite (import_style_absent w Hm).
Qed.

Lemma nth_error_firstn_some {A} (l : list A) (j k : nat) (a : A) :
  nth_error (firstn j l) k = Some a -> nth_error l k = Some a.
Proof.
  revert j k. induction l as [|x l IH]; intros j k H.
  - rewrite firstn_nil in H. now destruct k.
  - destruct j as [|j]; [now destruct k|].
    destruct k as [|k]; simpl in *; [assumption|]. now apply (IH j).
Qed.

Lemma new_samples_segment (st : Style) (w : World) :
  exists j, new_samples w (simplePlots st w) = firstn j gallery_samples.
Proof.
  destruct (proj1 (simplePlots_follows st w)) as [j Hj].
  exists j. unfold new_samples. rewrite Hj. apply skipn_length_app.
Qed.

Ltac run_ok :=
  repeat first
    [ rewrite bind_seed
    | rewrite bind_randn
    | rewrite bind_rand
    | apply bind_plt;
      [intros ? ? H; discriminate H | intros ? ?; cbv beta zeta] ].

Lemma simplePlots_final_rng (st : Style) (w : World) :
  is_ok (simplePlots st w) = true ->
  rng (final (simplePlots st w)) = gallery_final_rng.
Proof.
  destruct w as [g d mo s]. unfold simplePlots.
  run_ok.
  apply last_plt; [intros ? ? H; discriminate H | intros ? ? _; reflexivity].
Qed.

End GalleryRuns.


(** X16: run without the styling module and with every path writable, the
    gallery script completes; it has written the seven files of the
    [printout] calls, in order, and no other (so neither [barplot.png] nor
    [3dGraph.png]); it has printed the fourteen report lines; and it has
    displayed ten figures. *)
Theorem gallery_on_fallbacks_saves_seven_files :
  forall (L : Library) (w : World),
    modules w "utilities.SAP_mystyle" = None ->
    all_writable (sess w) ->
    exists w' : World,
      SAP_show_plots.main w = Ok tt w' /\
      map fst (files (sess w')) = rev gallery_files ++ map fst (files (sess w)) /\
      stdout (sess w') = stdout (sess w) ++ gallery_report /\
      length (shown (sess w')) = (length (shown (sess w)) + 10)%nat.
Proof.
  intros L w Hm Hw. rewrite (main_on_fallbacks w Hm).
  destruct (wtraces_bind _ _ _ _ _ _ _ _ simplePlots_trace
              (fun _ => show3D_trace) w Hw)
    as ([] & w' & E & _ & F & O & S).
  exists w'. rewrite E. rewrite app_nil_r in F, O.
  repeat split; assumption.
Qed.

Lemma gallery_on_fallbacks_saves_seven_files_witness :
  exists w' : World,
    SAP_show_plots.main (Sample.world_without_style 1234) = Ok tt w' /\
    map fst (files (sess w')) = rev gallery_files /\
    stdout (sess w') = gallery_report /\
    length (shown (sess w')) = 10%nat.
Proof.
  destruct (gallery_on_fallbacks_saves_seven_files Sample.library
              (Sample.world_without_style 1234) eq_refl (fun _ => eq_refl))
    as (w' & H1 & H2 & H3 & H4).
  exists w'. rewrite app_nil_r in H2. repeat split; assumption.
Defined.

(** X17: run without the styling module in a directory where
    [./scatterPlot.png] cannot be written, the gallery script stops at its
    first [printout] with the error of the file write: the 500 normal
    samples have been drawn, and nothing has been written, printed or
    displayed. *)
Theorem gallery_stops_at_first_unwritable_file :
  forall (L : Library) (w : World),
    modules w "utilities.SAP_mystyle" = None ->
    writable (sess w) "./scatterPlot.png" = false ->
    exists (w' : World) (x : list Qc),
      SAP_show_plots.main w = Raise (OSError "./scatterPlot.png") w' /\
      drawn w' = drawn w ++ [Sample1 x] /\ length x = 500%nat /\
      files (sess w') = files (sess w) /\
      stdout (sess w') = stdout (sess w) /\
      shown (sess w') = shown (sess w).
Proof.
  intros L w Hm Hw. rewrite (main_on_fallbacks w Hm).
  destruct w as [g d mo s]. cbn [sess drawn] in *.
  unfold bind at 1. unfold simplePlots.
  rewrite bind_seed, bind_randn.
  pose proof (draws_length mt_normal 500 (mt_seed 1234)) as Hl.
  destruct (draws mt_normal 500 (mt_seed 1234)) as [x g']. cbn [fst snd] in *.
  erewrite bind_plt_ok by reflexivity.
  erewrite bind_plt_ok by reflexivity.
  erewrite bind_plt_ok by reflexivity.
  erewrite bind_plt_ok by reflexivity.
  erewrite bind_plt_raise by (apply printout_unwritable; exact Hw).
  eexists. exists x. split; [reflexivity|].
  cbn [drawn sess files stdout shown]. repeat split. exact Hl.
Qed.

Lemma gallery_stops_at_first_unwritable_file_witness :
  exists (w' : World) (x : list Qc),
    SAP_show_plots.main
      (mkWorld (L := Sample.library) 7 [] (fun _ => None) read_only_session)
    = Raise (OSError "./scatterPlot.png") w' /\
    drawn w' = [Sample1 x] /\ length x = 500%nat /\
    files (sess w') = [] /\ stdout (sess w') = [] /\ shown (sess w') = [].
Proof.
  exact (gallery_stops_at_first_unwritable_file Sample.library
           (mkWorld (L := Sample.library) 7 [] (fun _ => None) read_only_session)
           eq_refl eq_refl).
Defined.

(** X18: whatever happens to a run of [simplePlots] (it may stop early
    with an error, the styling module may differ, the generator may start
    anywhere), the arrays it has drawn are an initial segment of the same
    list: the k-th array of one run equals the k-th array of any other. *)
Theorem samples_agree_even_when_a_run_stops :
  forall (L : Library) (style1 style2 : Style) (w1 w2 : World)
         (k : nat) (a b : sample),
    nth_error (new_samples w1 (simplePlots style1 w1)) k = Some a ->
    nth_error (new_samples w2 (simplePlots style2 w2)) k = Some b ->
    a = b.
Proof.
  intros L style1 style2 w1 w2 k a b Ha Hb.
  destruct (new_samples_segment style1 w1) as [j1 E1].
  destruct (new_samples_segment style2 w2) as [j2 E2].
  rewrite E1 in Ha. rewrite E2 in Hb.
  apply nth_error_firstn_some in Ha. apply nth_error_firstn_some in Hb.
  congruence.
Qed.

(** X19: a completed run of [simplePlots] leaves numpy's global generator
    in a state fixed by the seed 1234 alone: the state it had before the run
    is lost and has no influence. *)
Theorem gallery_resets_global_generator :
  forall (L : Library) (style1 style2 : Style) (w1 w2 : World),
    is_ok (simplePlots style1 w1) = true ->
    is_ok (simplePlots style2 w2) = true ->
    rng (final (simplePlots style1 w1)) = rng (final (simplePlots style2 w2)) /\
    rng (final (simplePlots style1 w1)) = gallery_final_rng.
Proof.
  intros L style1 style2 w1 w2 H1 H2.
  rewrite (simplePlots_final_rng style1 w1 H1).
  rewrite (simplePlots_final_rng style2 w2 H2).
  split; reflexivity.
Qed.

Lemma samples_agree_even_when_a_run_stops_witness :
  nth 0 (new_samples (Sample.world_without_style 7)
           (simplePlots fallback_style (Sample.world_without_style 7)))
        (Sample1 []) =
  nth 0 (new_samples
           (mkWorld (L := Sample.library) 99 [] (fun _ => None) read_only_session)
           (simplePlots fallback_style
              (mkWorld (L := Sample.library) 99 [] (fun _ => None)
                       read_only_session)))
        (Sample1 []).
Proof.
  apply (samples_agree_even_when_a_run_stops Sample.library
           fallback_style fallback_style
           (Sample.world_without_style 7)
           (mkWorld (L := Sample.library) 99 [] (fun _ => None) read_only_session)
           0%nat).
  - vm_compute. reflexivity.
  - vm_compute. reflexivity.
Defined.

Lemma gallery_resets_global_generator_witness :
  rng (final (simplePlots fallback_style (Sample.world_without_style 7))) =
  rng (final (simplePlots fallback_style (Sample.world_without_style 99))).
Proof.
  apply (gallery_resets_global_generator Sample.library
           fallback_style fallback_style
           (Sample.world_without_style 7) (Sample.world_without_style 99)).
  - vm_compute. reflexivity.
  - vm_compute. reflexivity.
Defined.

(** X20: when [utilities.my_style] can be imported, the filter demo itself
    writes, prints and displays nothing, draws no random number and never
    calls [set_fonts]: its outcome is that of the one call
    [show_data('filter_demo.jpg')], made on a figure to which
    [tight_layout()] has been applied and which holds the six panels in
    reading order. *)
Theorem filter_demo_hands_six_panels_to_show_data :
  forall (L : Library) (st : Style) (w : World),
    modules w "utilities.my_style" = Some st ->
    exists s0 : Session,
      F5_30_filter_images.main w =
      plt (style_showData st "filter_demo.jpg")
          (mkWorld (rng w) (drawn w) (modules w) s0) /\
      files s0 = files (sess w) /\ stdout s0 = stdout (sess w) /\
      shown s0 = shown (sess w) /\ rc s0 = rc (sess w) /\
      fig_tight (fig s0) = true /\
      fig_artists (fig s0) =
      [Imshow 0 0 (ImU8 camera);
       Imshow 0 1 (ImF (filtered_n (astype_float camera) 0));
       Imshow 1 0 (ImF (filtered_n (astype_float camera) 1));
       Imshow 1 1 (ImF (filtered_n (astype_float camera) 2));
       Imshow 2 0 (ImB (mask (astype_float camera) 1));
       Imshow 2 1 (ImB (mask (astype_float camera) 2))].
Proof.
  intros L st w Hm. destruct w as [g d mo s]. cbn [modules sess rng drawn] in *.
  unfold F5_30_filter_images.main. unfold bind at 1. unfold import_from.
  cbn [modules]. rewrite Hm. cbv zeta.
  do 10 (erewrite bind_plt_ok by reflexivity).
  eexists. split; [reflexivity|]. repeat split.
Qed.

Lemma filter_demo_hands_six_panels_to_show_data_witness :
  exists s0 : Session,
    F5_30_filter_images.main world_with_my_style =
    plt (style_showData my_style "filter_demo.jpg")
        (mkWorld (L := Sample.library) 7 [] (modules world_with_my_style) s0) /\
    files s0 = [] /\ stdout s0 = [] /\ shown s0 = [] /\
    fig_tight (fig s0) = true.
Proof.
  destruct (filter_demo_hands_six_panels_to_show_data Sample.library my_style
              world_with_my_style eq_refl)
    as (s0 & H1 & H2 & H3 & H4 & _ & H6 & _).
  exists s0. repeat split; assumption.
Defined.

Section GalleryMarks.
Context {L : Library}.

Lemma marks_ret {A} (a : A) : marks (ret a).
Proof. intros s Hs. exists a, s, []. repeat split; auto. Qed.

Lemma marks_bind {A B} (m : M Session A) (k : A -> M Session B) :
  marks m -> (forall a, marks (k a)) -> marks (bind m k).
Proof.
  intros Hm Hk s Hs.
  destruct (Hm s Hs) as (a & s1 & n1 & E1 & W1 & F1 & P1).
  destruct (Hk a s1 W1) as (b & s2 & n2 & E2 & W2 & F2 & P2).
  exists b, s2, (n2 ++ n1). unfold bind. rewrite E1.
  repeat split; try assumption.
  - now rewrite F2, F1, app_assoc.
  - apply Forall_app. now split.
Qed.

Lemma marks_modify (f : Session -> Session) :
  (forall s, writable (f s) = writable s /\ files (f s) = files s) ->
  marks (modify f).
Proof.
  intros Hf s Hs. exists tt, (f s), []. destruct (Hf s) as [Hw Hfs].
  repeat split; auto. intros p. rewrite Hw. apply Hs.
Qed.

Lemma marks_printout (outFile : string) (xlabel ylabel title outDir : option string) :
  marks (printout outFile xlabel ylabel title outDir).
Proof.
  intros s Hs. eexists. eexists. eexists.
  split; [apply printout_writable, Hs|].
  cbn [files writable]. split; [exact Hs|].
  split; [change (?x :: ?l) with ([x] ++ l); reflexivity|].
  constructor; [|constructor]. split; [reflexivity|].
  eexists. eexists. cbn. apply in_or_app. right. left. reflexivity.
Qed.

Lemma wmarks_plt {A} (m : M Session A) : marks m -> wmarks (plt m).
Proof.
  intros Hm w Hw. destruct (Hm _ Hw) as (a & s' & new & E & W & F & P).
  exists a, (mkWorld (rng w) (drawn w) (modules w) s'), new.
  unfold plt. rewrite E. now repeat split.
Qed.

Lemma wmarks_bind {A B} (m : M World A) (k : A -> M World B) :
  wmarks m -> (forall a, wmarks (k a)) -> wmarks (bind m k).
Proof.
  intros Hm Hk w Hw.
  destruct (Hm w Hw) as (a & w1 & n1 & E1 & W1 & F1 & P1).
  destruct (Hk a w1 W1) as (b & w2 & n2 & E2 & W2 & F2 & P2).
  exists b, w2, (n2 ++ n1). unfold bind. rewrite E1.
  repeat split; try assumption.
  - now rewrite F2, F1, app_assoc.
  - apply Forall_app. now split.
Qed.

Lemma wmarks_quiet {A} (m : M World A) :
  (forall w, exists a g d, m w = Ok a (mkWorld g d (modules w) (sess w))) ->
  wmarks m.
Proof.
  intros H w Hw. destruct (H w) as (a & g & d & E).
  eexists. eexists. exists []. split; [exact E|]. cbn. repeat split; auto.
Qed.

Lemma wmarks_seed (n : Z) : wmarks (np_random_seed n).
Proof. apply wmarks_quiet. intros w. eexists. eexists. eexists. reflexivity. Qed.

Lemma wmarks_randn (n : nat) : wmarks (np_random_randn n).
Proof.
  apply wmarks_quiet. intros w. unfold np_random_randn.
  destruct (draws mt_normal n (rng w)). eexists. eexists. eexists. reflexivity.
Qed.

Lemma wmarks_rand (h c : nat) : wmarks (np_random_rand h c).
Proof.
  apply wmarks_quiet. intros w. unfold np_random_rand.
  destruct (draw_rows mt_uniform h c (rng w)).
  eexists. eexists. eexists. reflexivity.
Qed.

Ltac mark_session :=
  repeat first
    [ apply marks_printout
    | apply marks_ret
    | apply marks_modify; intros ?; split; reflexivity
    | apply marks_bind; [|intros ?] ].

Ltac mark_world :=
  repeat first
    [ apply wmarks_seed
    | apply wmarks_randn
    | apply wmarks_rand
    | apply wmarks_plt; solve [mark_session]
    | apply wmarks_bind; [|intros ?] ].

Lemma simplePlots_marks : wmarks (simplePlots fallback_style).
Proof. unfold simplePlots. cbv zeta. mark_world. Qed.

Lemma show3D_marks : wmarks (show3D fallback_style).
Proof. unfold show3D. mark_world. Qed.

End GalleryMarks.

(** X21: every file the gallery script writes when it runs on the
    fallbacks is saved at 200 dpi and shows the dashed line at y = 0; this
    includes the histograms, the boxplot and the pie chart. *)
Theorem gallery_files_all_carry_the_zero_line :
  forall (L : Library) (w : World),
    modules w "utilities.SAP_mystyle" = None ->
    all_writable (sess w) ->
    exists (w' : World) (new : list (string * (Figure * Z))),
      SAP_show_plots.main w = Ok tt w' /\
      files (sess w') = new ++ files (sess w) /\
      Forall printout_style new.
Proof.
  intros L w Hm Hw. rewrite (main_on_fallbacks w Hm).
  destruct (wmarks_bind _ _ simplePlots_marks (fun _ => show3D_marks) w Hw)
    as ([] & w' & new & E & _ & F & P).
  exists w', new. rewrite E. repeat split; assumption.
Qed.

Lemma gallery_files_all_carry_the_zero_line_witness :
  exists (w' : World) (new : list (string * (Figure * Z))),
    SAP_show_plots.main (Sample.world_without_style 1234) = Ok tt w' /\
    files (sess w') = new ++ [] /\
    Forall printout_style new.
Proof.
  exact (gallery_files_all_carry_the_zero_line Sample.library
           (Sample.world_without_style 1234) eq_refl (fun _ => eq_refl)).
Defined.

Section GalleryNeeds.
Context {L : Library}.

Lemma needs_ret {A} (a : A) : needs [] (ret a).
Proof. intros s. simpl. split; [reflexivity | constructor]. Qed.

Lemma needs_modify (f : Session -> Session) :
  (forall s, writable (f s) = writable s) -> needs [] (modify f).
Proof. intros Hf s. simpl. split; [apply Hf | constructor]. Qed.

Lemma needs_printout (outFile : string) (xlabel ylabel title outDir : option string) :
  needs [os_path_join (default "."%string outDir) outFile]
        (printout outFile xlabel ylabel title outDir).
Proof.
  intros s.
  destruct (writable s (os_path_join (default "."%string outDir) outFile)) eqn:Hw.
  - rewrite (printout_writable _ _ _ _ _ _ Hw). simpl.
    split; [reflexivity | now repeat constructor].
  - rewrite (printout_unwritable _ _ _ _ _ _ Hw). simpl.
    eexists. split; [left; reflexivity | now split].
Qed.

Lemma needs_bind {A B} (m : M Session A) (k : A -> M Session B) n1 n2 :
  needs n1 m -> (forall a, needs n2 (k a)) -> needs (n1 ++ n2) (bind m k).
Proof.
  intros Hm Hk s. specialize (Hm s). unfold bind.
  destruct (m s) as [a s1 | e s1]; simpl in Hm.
  - destruct Hm as [W1 F1]. specialize (Hk a s1). rewrite W1 in Hk.
    destruct (k a s1) as [b s2 | e s2]; simpl in *.
    + destruct Hk as [W2 F2]. split; [assumption|]. apply Forall_app. now split.
    + destruct Hk as (p & Hp & He & Hw). exists p.
      split; [apply in_or_app; now right | now split].
  - destruct Hm as (p & Hp & He & Hw). exists p.
    split; [apply in_or_app; now left | now split].
Qed.

Lemma wneeds_plt {A} n (m : M Session A) : needs n m -> wneeds n (plt m).
Proof.
  intros Hm w. specialize (Hm (sess w)). unfold plt.
  destruct (m (sess w)); simpl in *; assumption.
Qed.

Lemma wneeds_bind {A B} (m : M World A) (k : A -> M World B) n1 n2 :
  wneeds n1 m -> (forall a, wneeds n2 (k a)) -> wneeds (n1 ++ n2) (bind m k).
Proof.
  intros Hm Hk w. specialize (Hm w). unfold bind.
  destruct (m w) as [a w1 | e w1]; simpl in Hm.
  - destruct Hm as [W1 F1]. specialize (Hk a w1). rewrite W1 in Hk.
    destruct (k a w1) as [b w2 | e w2]; simpl in *.
    + destruct Hk as [W2 F2]. split; [assumption|]. apply Forall_app. now split.
    + destruct Hk as (p & Hp & He & Hw). exists p.
      split; [apply in_or_app; now right | now split].
  - destruct Hm as (p & Hp & He & Hw). exists p.
    split; [apply in_or_app; now left | now split].
Qed.

Lemma wneeds_quiet {A} (m : M World A) :
  (forall w, exists a g d, m w = Ok a (mkWorld g d (modules w) (sess w))) ->
  wneeds [] m.
Proof.
  intros H w. destruct (H w) as (a & g & d & E). rewrite E. simpl.
  split; [reflexivity | constructor].
Qed.

Lemma wneeds_eq {A} (m : M World A) n n' :
  wneeds n m -> n = n' -> wneeds n' m.
Proof. intros H <-. exact H. Qed.

Lemma wneeds_seed (n : Z) : wneeds [] (np_random_seed n).
Proof. apply wneeds_quiet. intros w. eexists. eexists. eexists. reflexivity. Qed.

Lemma wneeds_randn (n : nat) : wneeds [] (np_random_randn n).
Proof.
  apply wneeds_quiet. intros w. unfold np_random_randn.
  destruct (draws mt_normal n (rng w)). eexists. eexists. eexists. reflexivity.
Qed.

Lemma wneeds_rand (h c : nat) : wneeds [] (np_random_rand h c).
Proof.
  apply wneeds_quiet. intros w. unfold np_random_rand.
  destruct (draw_rows mt_uniform h c (rng w)).
  eexists. eexists. eexists. reflexivity.
Qed.

Ltac need_session :=
  repeat (cbv beta;
    lazymatch goal with
    | |- needs _ (printout _ _ _ _ _) => eapply needs_printout
    | |- needs _ (bind _ _) => eapply needs_bind; [|intros ?]
    | |- needs _ (ret _) => eapply needs_ret
    | |- needs _ _ => eapply needs_modify; intros ?; reflexivity
    end).

Ltac need_world :=
  repeat (cbv beta;
    lazymatch goal with
    | |- wneeds _ (bind _ _) => eapply wneeds_bind; [|intros ?]
    | |- wneeds _ (np_random_seed _) => eapply wneeds_seed
    | |- wneeds _ (np_random_randn _) => eapply wneeds_randn
    | |- wneeds _ (np_random_rand _ _) => eapply wneeds_rand
    | |- wneeds _ (plt _) => eapply wneeds_plt; solve [need_session]
    end).

Lemma gallery_needs :
  wneeds gallery_files
         (bind (simplePlots fallback_style) (fun _ => show3D fallback_style)).
Proof.
  eapply wneeds_eq.
  - unfold simplePlots, show3D, fallback_style.
    cbv zeta. cbn [style_setFonts style_showData]. need_world.
  - reflexivity.
Qed.

Lemma safe_savefig (name : string) (dpi : Z) : safe (plt_savefig name dpi).
Proof.
  intros s Hs. unfold plt_savefig. rewrite Hs.
  eexists. eexists. split; [reflexivity | exact Hs].
Qed.

Lemma safe_my_style : safe_style my_style.
Proof.
  split; intros ?; simpl.
  - apply safe_ret.
  - apply safe_bind; [apply safe_savefig | intros ?].
    apply safe_modify. intros ?. reflexivity.
Qed.

End GalleryNeeds.

(** X22: without the styling module, the gallery script completes exactly
    when its seven target files can be written, and the only thing it can
    raise is the error of writing one of them that cannot be written. *)
Theorem gallery_completes_iff_its_files_are_writable :
  forall (L : Library) (w : World),
    modules w "utilities.SAP_mystyle" = None ->
    (is_ok (SAP_show_plots.main w) = true <->
     Forall (fun p => writable (sess w) p = true) gallery_files) /\
    (is_ok (SAP_show_plots.main w) = false ->
     exists (p : string) (w' : World),
       In p gallery_files /\ writable (sess w) p = false /\
       SAP_show_plots.main w = Raise (OSError p) w').
Proof.
  intros L w Hm. rewrite (main_on_fallbacks w Hm).
  pose proof (gallery_needs w) as H.
  destruct (bind (simplePlots fallback_style) (fun _ => show3D fallback_style) w)
    as [a w' | e w']; simpl in *.
  - destruct H as [_ F]. split; [tauto | discriminate].
  - destruct H as (p & Hp & -> & Hw). split.
    + split; [discriminate|]. intros F. rewrite Forall_forall in F.
      specialize (F p Hp). congruence.
    + intros _. now exists p, w'.
Qed.

Lemma gallery_completes_iff_its_files_are_writable_witness :
  is_ok (SAP_show_plots.main (Sample.world_without_style 1234)) = true <->
  Forall (fun p => writable (sess (Sample.world_without_style 1234)) p = true)
         gallery_files.
Proof.
  exact (proj1 (gallery_completes_iff_its_files_are_writable Sample.library
                  (Sample.world_without_style 1234) eq_refl)).
Defined.

(** X23: with a styling module whose two functions complete and leave
    every path writable, the gallery script completes whenever every path
    can be written; the table of importable modules is unchanged. *)
Theorem gallery_completes_with_a_safe_styling_module :
  forall (L : Library) (st : Style) (w : World),
    modules w "utilities.SAP_mystyle" = Some st ->
    safe_style st ->
    all_writable (sess w) ->
    exists w' : World,
      SAP_show_plots.main w = Ok tt w' /\ modules w' = modules w.
Proof.
  intros L st w Hm Hst Hw.
  assert (E : SAP_show_plots.main w =
              bind (simplePlots st) (fun _ => show3D st) w).
  { unfold SAP_show_plots.main. unfold bind at 1.
    unfold import_style, try_except_ImportError, import_from.
    now rewrite Hm. }
  rewrite E.
  destruct (wsafe_bind _ _ (wsafe_simplePlots _ Hst)
              (fun _ => wsafe_show3D _ Hst) w Hw)
    as ([] & w' & E' & _ & M).
  exists w'. now rewrite E'.
Qed.

Lemma gallery_completes_with_a_safe_styling_module_witness :
  exists w' : World,
    SAP_show_plots.main world_with_SAP_mystyle = Ok tt w' /\
    modules w' = modules world_with_SAP_mystyle.
Proof.
  exact (gallery_completes_with_a_safe_styling_module Sample.library my_style
           world_with_SAP_mystyle eq_refl safe_my_style (fun _ => eq_refl)).
Defined.
